(** * ByteForge voice assistant: conversation orchestration

    A shallow embedding of the call-session store ([src/config/redis.ts]),
    the reservation availability check ([src/models/reservation.ts]), the
    analysis helpers of the reasoning client ([src/services/openai.ts]), the
    conversation service ([src/services/conversation.ts]) and the media-stream
    turn guard ([src/routes/twilio.ts]), with the properties that the
    specification states about them.

    Asynchronous functions are embedded as functions on an explicit world
    (the session store and the trace of calls made to external services);
    a rejected promise or a thrown exception is the [Throw] outcome. *)

From stdpp Require Import base strings gmap list option pretty.
From Stdlib Require Import Ascii ZArith QArith Lia.

Local Open Scope string_scope.
Local Open Scope list_scope.
Local Open Scope Z_scope.

(** ** JavaScript outcomes *)

Module Js.

(** The outcome of an awaited call: a value, or a thrown error. *)
Inductive Result (A : Type) : Type :=
| Ok (a : A)
| Throw (err : string).
Arguments Ok {A} a.
Arguments Throw {A} err.

(** [s || dflt] on a possibly missing string: the empty string is falsy. *)
Definition or_string (s : option string) (dflt : string) : string :=
  match s with
  | Some v => if decide (v = "") then dflt else v
  | None => dflt
  end.

(** Truthiness of a possibly missing string. *)
Definition truthy_string (s : option string) : bool :=
  match s with
  | Some v => if decide (v = "") then false else true
  | None => false
  end.

(** [n.toString().padStart(2, '0')] *)
Definition padStart2 (n : Z) : string :=
  let s := pretty n in
  if (String.length s <? 2)%nat then "0" +:+ s else s.

(** The value of a decimal digit. *)
Definition digitValue (a : ascii) : option Z :=
  let n := Z.of_nat (nat_of_ascii a) in
  if (48 <=? n) && (n <=? 57) then Some (n - 48) else None.

(** [Number(s)] for the strings made of decimal digits only; the empty
    string reads as 0 and any other character gives [NaN], here [None]. *)
Fixpoint digitsValue (s : string) (acc : Z) : option Z :=
  match s with
  | EmptyString => Some acc
  | String a rest =>
    match digitValue a with
    | Some d => digitsValue rest (10 * acc + d)
    | None => None
    end
  end.

Definition Number (s : string) : option Z := digitsValue s 0.

(** [s.split(':')] *)
Fixpoint split_colon (s : string) : list string :=
  match s with
  | EmptyString => [EmptyString]
  | String a rest =>
    if Ascii.eqb a ":"%char then EmptyString :: split_colon rest
    else
      match split_colon rest with
      | field :: fields => String a field :: fields
      | [] => [String a EmptyString]
      end
  end.

End Js.

(** ** Reservation model: [src/models/reservation.ts] *)

Module ReservationModel.
Import Js.

(** A time of day as the dispatcher hands it over: the string [HH:MM]
    (checked against [^\d{2}:\d{2}$] by [validateReservation]) split at the
    colon, each part read as a number.  [findAlternativeSlots] rebuilds the
    string from [newHour] and [prefMinutes] with two-digit padding, and the
    recursive call splits it again into the same two numbers. *)
Record Time : Type := mkTime { hours : Z; minutes : Z }.

#[export] Instance Time_eq_dec : EqDecision Time.
Proof. solve_decision. Defined.

(** The string that [findAlternativeSlots] builds for a slot, and the two
    numbers that [split(':').map(Number)] reads back from a time string. *)
Definition renderTime (t : Time) : string :=
  padStart2 (hours t) +:+ ":" +:+ padStart2 (minutes t).

Definition splitTime (s : string) : option Time :=
  match split_colon s with
  | h :: m :: _ =>
    match Number h, Number m with
    | Some prefHours, Some prefMinutes => Some (mkTime prefHours prefMinutes)
    | _, _ => None
    end
  | _ => None
  end.

(** Whether every hour and minute of the day is read back from its
    string. *)
Definition roundTrips : bool :=
  forallb (fun h =>
    forallb (fun m =>
      bool_decide (splitTime (renderTime (mkTime h m)) = Some (mkTime h m)))
      (seqZ 0 60))
    (seqZ 0 24).

(** The three environment settings the availability check reads, already
    through [parseInt]: [MAX_RESERVATIONS_PER_SLOT] (default 2) and the hour
    parts of [BUSINESS_OPENING_HOUR] (default 8) and
    [BUSINESS_CLOSING_HOUR] (default 16). *)
Record Config : Type := mkConfig {
  maxPerSlot : Z;
  openingHour : Z;
  closingHour : Z;
}.

Definition defaultConfig : Config :=
  {| maxPerSlot := 2; openingHour := 8; closingHour := 16 |}.

(** The two queries [checkAvailability] sends to the relational store, as
    the store answers them for a date and a time: the [reason] column of the
    matching [blocked_times] rows, and the [COUNT] of live reservations in
    the window of thirty minutes either side of the time. *)
Record Db : Type := mkDb {
  blocked_times : string -> Time -> Result (list (option string));
  reservations_count : string -> Time -> Result Z;
}.

Record Slot : Type := mkSlot {
  slot_date : string;
  slot_time : Time;
  slot_available : bool;
}.

Record AvailabilityResult : Type := mkAvailability {
  available : bool;
  currentBookings : option Z;
  maxCapacity : option Z;
  reason : option string;
  alternativeSlots : option (list Slot);
}.

(** The probe order of [findAlternativeSlots]. *)
Definition offsets : list Z := [1; -1; 2; -2; 3; -3].

Section WithStore.
Variable cfg : Config.
Variable db : Db.

Section Loop.
(** The availability check that the loop body awaits; [None] when the
    recursion budget is spent. *)
Variable check : string -> Time -> Z -> option (Result AvailabilityResult).
Variables (date : string) (preferredTime : Time) (count : Z) (partySize : Z).

(** The [for (const offset of offsets)] loop of [findAlternativeSlots],
    with [alternatives] as the array built so far. *)
Fixpoint probe (offs : list Z) (alternatives : list Slot)
  : option (Result (list Slot)) :=
  match offs with
  | [] => Some (Ok alternatives)
  | offset :: rest =>
    if count <=? Z.of_nat (length alternatives) then Some (Ok alternatives)
    else
      let newHour := hours preferredTime + offset in
      if (openingHour cfg <=? newHour) && (newHour <=? closingHour cfg) then
        let newTime := mkTime newHour (minutes preferredTime) in
        match check date newTime partySize with
        | None => None
        | Some (Throw e) => Some (Throw e)
        | Some (Ok availability) =>
          if available availability
          then probe rest (alternatives ++ [mkSlot date newTime true])
          else probe rest alternatives
        end
      else probe rest alternatives
  end.

Definition findAlternativeSlots : option (Result (list Slot)) :=
  probe offsets [].
End Loop.

(** [checkAvailability]; [fuel] bounds the depth of the mutual recursion
    with [findAlternativeSlots], and [None] means the bound was reached. *)
Fixpoint checkAvailability (fuel : nat) (date : string) (time : Time) (partySize : Z)
  : option (Result AvailabilityResult) :=
  match fuel with
  | O => None
  | S fuel' =>
    match blocked_times db date time with
    | Throw e => Some (Throw e)
    | Ok (row :: _) =>
      Some (Ok {| available := false;
                  currentBookings := None;
                  maxCapacity := None;
                  reason := Some (or_string row "this date/time is not available");
                  alternativeSlots := None |})
    | Ok [] =>
      match reservations_count db date time with
      | Throw e => Some (Throw e)
      | Ok bookings =>
        if maxPerSlot cfg <=? bookings then
          match findAlternativeSlots (checkAvailability fuel') date time 3 partySize with
          | None => None
          | Some (Throw e) => Some (Throw e)
          | Some (Ok alternatives) =>
            Some (Ok {| available := false;
                        currentBookings := Some bookings;
                        maxCapacity := Some (maxPerSlot cfg);
                        reason := Some "This time slot is fully booked";
                        alternativeSlots := Some alternatives |})
          end
        else
          Some (Ok {| available := true;
                      currentBookings := Some bookings;
                      maxCapacity := Some (maxPerSlot cfg);
                      reason := None;
                      alternativeSlots := None |})
      end
    end
  end.

(** What the two queries say about one slot, without looking at its
    neighbours. *)
Inductive SlotStatus : Type :=
| QueryFails
| Blocked
| Open
| FullyBooked.

Definition slotStatus (date : string) (time : Time) : SlotStatus :=
  match blocked_times db date time with
  | Throw _ => QueryFails
  | Ok (_ :: _) => Blocked
  | Ok [] =>
    match reservations_count db date time with
    | Throw _ => QueryFails
    | Ok bookings => if maxPerSlot cfg <=? bookings then FullyBooked else Open
    end
  end.

Definition inBusinessHours (t : Time) : bool :=
  (openingHour cfg <=? hours t) && (hours t <=? closingHour cfg).

Definition shift (t : Time) (offset : Z) : Time :=
  mkTime (hours t + offset) (minutes t).






End WithStore.

#[export] Instance SlotStatus_eq_dec : EqDecision SlotStatus.
Proof. solve_decision. Defined.

(** A store built from a table of reservations: nothing is blocked, and a
    slot counts the rows of its date within thirty minutes of it, as the
    [BETWEEN] window of the query does (minutes since midnight). *)
Record Row : Type := mkRow { row_date : string; row_time : Time; row_live : bool }.

Definition minuteOfDay (t : Time) : Z := hours t * 60 + minutes t.

Definition inWindow (date : string) (t : Time) (r : Row) : bool :=
  bool_decide (row_date r = date)
  && (minuteOfDay t - 30 <=? minuteOfDay (row_time r))
  && (minuteOfDay (row_time r) <=? minuteOfDay t + 30)
  && row_live r.

Definition tableDb (rows : list Row) : Db :=
  {| blocked_times := fun _ _ => Ok [];
     reservations_count := fun date t =>
       Ok (Z.of_nat (length (filter (fun r => inWindow date t r = true) rows))) |}.


Definition twoSlotsFull : list Row :=
  [ mkRow "2025-06-01" (mkTime 10 0) true; mkRow "2025-06-01" (mkTime 10 0) true;
    mkRow "2025-06-01" (mkTime 11 0) true; mkRow "2025-06-01" (mkTime 11 0) true ].

End ReservationModel.


(** ** Data model: [types/index.ts] *)

Module Types.
Import ReservationModel.

Record Customer : Type := mkCustomer {
  customer_id : Z;
  phone : string;
  full_name : option string;
  total_reservations : Z;
}.

(** [reservation_time] is the [HH:MM] string of the interface, split as in
    [ReservationModel.Time]. *)
Record Reservation : Type := mkReservation {
  reservation_id : Z;
  reservation_date : string;
  reservation_time : Time;
  party_size : Z;
  reservation_status : string;
  confirmation_code : string;
}.

Inductive Role : Type := system | user | assistant | tool.

#[export] Instance Role_eq_dec : EqDecision Role.
Proof. solve_decision. Defined.

(** [content] is missing when the stored value was [undefined], which
    [JSON.stringify] leaves out. *)
Record Message : Type := mkMessage {
  role : Role;
  content : option string;
  timestamp : Z;
}.

Inductive ConversationStep : Type :=
  Greeting | Listening | CollectingInfo | Confirming | Processing | Ending.

Record SessionState : Type := mkSessionState {
  currentStep : ConversationStep;
  confirmationPending : bool;
  pendingReservation : option (gmap string string);
  transferRequested : bool;
  endRequested : bool;
}.

Record Session : Type := mkSession {
  callSid : string;
  customer : option Customer;
  upcomingReservations : list Reservation;
  state : SessionState;
  messageHistory : list Message;
  collectedData : gmap string string;
  createdAt : Z;
}.

(** [Partial<SessionState>] and [Partial<Session>]: a missing field keeps
    the stored one under the object spread. *)
Record SessionStateUpdates : Type := mkSessionStateUpdates {
  upd_currentStep : option ConversationStep;
  upd_confirmationPending : option bool;
  upd_transferRequested : option bool;
  upd_endRequested : option bool;
}.

Record SessionUpdates : Type := mkSessionUpdates {
  upd_customer : option (option Customer);
  upd_state : option SessionState;
  upd_messageHistory : option (list Message);
}.

(** A number that [parseInt] may fail to read: [None] is [NaN]. *)
Definition JsNumber : Type := option Z.

(** The argument bag of a tool call, [Record<string, unknown>]. *)
Inductive JsValue : Type :=
| JsNull
| JsBool (b : bool)
| JsNum (n : Z)
| JsStr (s : string).

(** The shapes of [data] in a [FunctionExecutionResult]. *)
Record ReservationView : Type := mkReservationView {
  view_id : Z;
  view_date : string;
  view_status : string;
  view_confirmationCode : string;
}.

Inductive ResultData : Type :=
| DataAvailability (availability : AvailabilityResult)
| DataReservation (reservationId : Z) (confirmationCode : option string)
    (date : string) (time : Time) (partySize : Z)
| DataCancelled (reservationId : JsNumber)
| DataReservations (reservations : list ReservationView)
| DataName (name : string)
| DataFaq (found : bool) (text : string)
| DataTransferring
| DataEnding.

Record FunctionExecutionResult : Type := mkFunctionExecutionResult {
  success : bool;
  data : option ResultData;
  error : option string;
  shouldEnd : option bool;
  shouldTransfer : option bool;
  transferReason : option string;
}.

Definition succeeded (d : ResultData) : FunctionExecutionResult :=
  mkFunctionExecutionResult true (Some d) None None None None.

Definition failed (e : string) : FunctionExecutionResult :=
  mkFunctionExecutionResult false None (Some e) None None None.

Record FunctionCallResult : Type := mkFunctionCall {
  fc_name : string;
  fc_arguments : gmap string JsValue;
  fc_id : string;
}.

Record OpenAIChatResponse : Type := mkChatResponse {
  chat_content : option string;
  functionCall : option FunctionCallResult;
}.

Record ToolContext : Type := mkToolContext {
  businessName : string;
  customerPhone : string;
  customerName : option string;
  reservationCount : Z;
  currentDate : string;
  ctx_openingHour : string;
  ctx_closingHour : string;
}.

(** An audio buffer, by its bytes. *)
Definition Buffer : Type := list Z.

Record GreetingResponse : Type := mkGreetingResponse {
  greeting_text : option string;
  greeting_audio : option Buffer;
}.

Record ConversationResponse : Type := mkConversationResponse {
  text : string;
  audio : option Buffer;
  resp_shouldEnd : bool;
  resp_shouldTransfer : bool;
  resp_transferReason : option string;
}.

(** The [updates] object that [handleModifyReservation] builds. *)
Record ModifyUpdates : Type := mkModifyUpdates {
  mod_date : option string;
  mod_time : option string;
  mod_partySize : option JsNumber;
  mod_specialRequests : option string;
}.

(** The argument of [callLogModel.completeCall]. *)
Record CompleteCallData : Type := mkCompleteCallData {
  cc_status : string;
  cc_durationSeconds : option Z;
  cc_transcript : option string;
  cc_summary : option string;
  cc_intent : option string;
  cc_sentiment : option string;
  cc_sentimentScore : option Q;
}.

End Types.

(** ** Session store: [src/config/redis.ts]

    The store is the map from call identifiers to the sessions kept under
    the [session:] prefix.  What is stored is the output of
    [JSON.stringify], which [JSON.parse] reads back.  Every write is a
    [SETEX] with the one-hour expiry; the passing of time is not part of the
    model, an expired session is an absent one. *)

Module Redis.
Import Types.

Definition setSession (callSid : string) (session : Session)
    (store : gmap string Session) : gmap string Session :=
  <[callSid := session]> store.

Definition getSession (callSid : string) (store : gmap string Session) : option Session :=
  store !! callSid.

Definition deleteSession (callSid : string) (store : gmap string Session)
    : gmap string Session :=
  delete callSid store.

(** [{ ...session, ...updates }] *)
Definition spreadSession (session : Session) (updates : SessionUpdates) : Session :=
  {| callSid := callSid session;
     customer := default (customer session) (upd_customer updates);
     upcomingReservations := upcomingReservations session;
     state := default (state session) (upd_state updates);
     messageHistory := default (messageHistory session) (upd_messageHistory updates);
     collectedData := collectedData session;
     createdAt := createdAt session |}.

Definition updateSession (callSid : string) (updates : SessionUpdates)
    (store : gmap string Session) : option Session * gmap string Session :=
  match getSession callSid store with
  | None => (None, store)
  | Some session =>
    let updatedSession := spreadSession session updates in
    (Some updatedSession, setSession callSid updatedSession store)
  end.

(** [{ ...session.state, ...stateUpdates }] *)
Definition spreadState (st : SessionState) (stateUpdates : SessionStateUpdates)
    : SessionState :=
  {| currentStep := default (currentStep st) (upd_currentStep stateUpdates);
     confirmationPending :=
       default (confirmationPending st) (upd_confirmationPending stateUpdates);
     pendingReservation := pendingReservation st;
     transferRequested := default (transferRequested st) (upd_transferRequested stateUpdates);
     endRequested := default (endRequested st) (upd_endRequested stateUpdates) |}.

Definition withState (session : Session) (st : SessionState) : Session :=
  {| callSid := callSid session;
     customer := customer session;
     upcomingReservations := upcomingReservations session;
     state := st;
     messageHistory := messageHistory session;
     collectedData := collectedData session;
     createdAt := createdAt session |}.

Definition updateSessionState (callSid : string) (stateUpdates : SessionStateUpdates)
    (store : gmap string Session) : option Session * gmap string Session :=
  match getSession callSid store with
  | None => (None, store)
  | Some session =>
    let updatedSession := withState session (spreadState (state session) stateUpdates) in
    (Some updatedSession, setSession callSid updatedSession store)
  end.

(** [session.messageHistory.push(message)] on the freshly parsed copy. *)
Definition pushMessage (session : Session) (message : Message) : Session :=
  {| callSid := callSid session;
     customer := customer session;
     upcomingReservations := upcomingReservations session;
     state := state session;
     messageHistory := messageHistory session ++ [message];
     collectedData := collectedData session;
     createdAt := createdAt session |}.

Definition addMessage (callSid : string) (message : Message)
    (store : gmap string Session) : gmap string Session :=
  match getSession callSid store with
  | None => store
  | Some session => setSession callSid (pushMessage session message) store
  end.

End Redis.


(** ** The world outside the process

    Calls that leave the process (the relational store behind the models,
    the reasoning service, speech synthesis, the telephony client) are
    recorded, in order, in a trace; what such a call answers is given by an
    oracle that sees the trace so far, so that the same call may succeed
    once and fail later.  The session store is kept as a value. *)

Module World.
Import Js Types ReservationModel.

Inductive Analysis : Type := Summary | Intent | Sentiment.

Inductive Event : Type :=
| CustomerFindOrCreate (phone : string)
| CustomerUpdateName (id : Z) (name : string)
| ReservationFindUpcomingByCustomer (customerId : Z)
| ReservationCheckAvailability (date time : string) (partySize : JsNumber)
| ReservationCreate (customerId : Z) (date time : string) (partySize : JsNumber)
    (specialRequests : option string)
| ReservationModify (reservationId : JsNumber) (updates : ModifyUpdates)
| CallLogCreate (callSid fromNumber toNumber : string) (customerId : Z)
| CallLogCompleteCall (callSid : string) (data : CompleteCallData)
| CallLogAppendToTranscript (callSid speaker text : string)
| CallLogMarkTransferred (callSid reason : string)
| CallLogLinkReservation (callSid : string) (reservationId : Z)
| FaqFindMatch (question : string)
| OpenAIChat (messages : list Message) (context : ToolContext)
| OpenAIContinue (messages : list Message) (functionName : string)
    (functionResult : FunctionExecutionResult) (toolCallId : string)
| OpenAICompletion (purpose : Analysis) (transcript : string)
| TextToSpeech (text : option string)
| MediaSend (streamSid : string) (audio : Buffer)
| CallHangup (callSid : string)
| CallTransfer (callSid : string).

Record World : Type := mkWorld {
  sessions : gmap string Session;
  trace : list Event;
}.

(** What [JSON.parse] finds in a sentiment reply: the [sentiment] string
    when there is a truthy one, the [score] when it is a number. *)
Record ParsedSentiment : Type := mkParsedSentiment {
  parsed_sentiment : option string;
  parsed_score : option Q;
}.

Record Env : Type := mkEnv {
  (* process.env *)
  BUSINESS_NAME : option string;
  BUISINESS_NAME : option string;
  BUISINESS_OPENING_HOUR : option string;
  BUISINESS_CLOSING_HOUR : option string;
  MAX_PARTY_SIZE : Z;
  TRANSFER_NUMBER : option string;
  (* clock and library functions *)
  clock : list Event -> Z;
  today : list Event -> string;
  toLocaleDateString : string -> string;
  toLowerCase_trim : string -> string;
  JSON_parse : string -> option ParsedSentiment;
  validateReservation : list Event -> string -> string -> option string;
  (* models *)
  customerModel_findOrCreate : list Event -> string -> Result Customer;
  customerModel_updateName : list Event -> Z -> string -> Result unit;
  reservationModel_findUpcomingByCustomer : list Event -> Z -> Result (list Reservation);
  reservationModel_checkAvailability :
    list Event -> string -> string -> JsNumber -> Result AvailabilityResult;
  reservationModel_create :
    list Event -> Z -> string -> string -> JsNumber -> option string -> Result Reservation;
  reservationModel_modify :
    list Event -> JsNumber -> ModifyUpdates -> Result (option Reservation);
  callLogModel_create : list Event -> string -> string -> string -> Z -> Result unit;
  callLogModel_completeCall : list Event -> string -> CompleteCallData -> Result unit;
  callLogModel_appendToTranscript : list Event -> string -> string -> string -> Result unit;
  callLogModel_markTransferred : list Event -> string -> string -> Result unit;
  callLogModel_linkReservation : list Event -> string -> Z -> Result unit;
  faqModel_findMatch : list Event -> string -> Result (option string);
  (* services *)
  openai_chat : list Event -> list Message -> ToolContext -> Result OpenAIChatResponse;
  openai_continueAfterFunctionCall :
    list Event -> list Message -> string -> FunctionExecutionResult -> string ->
    ToolContext -> Result string;
  openai_completions_create : list Event -> Analysis -> string -> Result (option string);
  ttsService_textToSpeech : list Event -> option string -> Result Buffer;
  ws_send : list Event -> string -> Buffer -> Result unit;
  twilioClient_update : list Event -> string -> Result unit;
}.

(** An asynchronous computation: from a world to its outcome and the world
    it leaves behind.  A throw keeps the effects made before it. *)
Definition M (A : Type) : Type := World -> Result A * World.

Definition ret {A : Type} (a : A) : M A := fun w => (Ok a, w).

Definition throw {A : Type} (e : string) : M A := fun w => (Throw e, w).

Definition bind {A B : Type} (m : M A) (k : A -> M B) : M B :=
  fun w =>
    match m w with
    | (Ok a, w') => k a w'
    | (Throw e, w') => (Throw e, w')
    end.

(** [try { m } catch (error) { handler }] *)
Definition try_catch {A : Type} (m : M A) (handler : string -> M A) : M A :=
  fun w =>
    match m w with
    | (Ok a, w') => (Ok a, w')
    | (Throw e, w') => handler e w'
    end.

(** A call that leaves the process. *)
Definition external {A : Type} (ev : Event) (oracle : list Event -> Result A) : M A :=
  fun w => (oracle (trace w), mkWorld (sessions w) (trace w ++ [ev])).

(** A reading of the clock or of another ambient value. *)
Definition ambient {A : Type} (read : list Event -> A) : M A :=
  fun w => (Ok (read (trace w)), w).

(** Session store operations lifted to the world. *)
Definition redis_getSession (callSid : string) : M (option Session) :=
  fun w => (Ok (Redis.getSession callSid (sessions w)), w).

Definition redis_setSession (callSid : string) (session : Session) : M unit :=
  fun w => (Ok tt, mkWorld (Redis.setSession callSid session (sessions w)) (trace w)).

Definition redis_addMessage (callSid : string) (message : Message) : M unit :=
  fun w => (Ok tt, mkWorld (Redis.addMessage callSid message (sessions w)) (trace w)).

Definition redis_updateSession (callSid : string) (updates : SessionUpdates)
    : M (option Session) :=
  fun w =>
    let '(r, store) := Redis.updateSession callSid updates (sessions w) in
    (Ok r, mkWorld store (trace w)).

Definition redis_updateSessionState (callSid : string) (stateUpdates : SessionStateUpdates)
    : M (option Session) :=
  fun w =>
    let '(r, store) := Redis.updateSessionState callSid stateUpdates (sessions w) in
    (Ok r, mkWorld store (trace w)).

Definition redis_deleteSession (callSid : string) : M unit :=
  fun w => (Ok tt, mkWorld (Redis.deleteSession callSid (sessions w)) (trace w)).

End World.

(** [let! x := m in k] awaits [m] and goes on with [k]; a throw of [m]
    ends the computation. *)
Notation "'let!' x ':=' m 'in' k" := (World.bind m (fun x => k))
  (at level 10, x binder, m at level 200, k at level 200, only parsing).

(** ** Analysis helpers of the reasoning client: [src/services/openai.ts] *)

Module OpenAI.
Import Js Types World.

Section WithEnv.
Variable env : Env.

Definition generateCallSummary (transcript : string) : M string :=
  try_catch
    (let! content := external (OpenAICompletion Summary transcript)
                       (fun tr => openai_completions_create env tr Summary transcript) in
     ret (or_string content "unable to generate summary"))
    (fun _ => ret "Unable to generate summary ").

Definition detectIntent (transcript : string) : M string :=
  try_catch
    (let! content := external (OpenAICompletion Intent transcript)
                       (fun tr => openai_completions_create env tr Intent transcript) in
     ret (or_string (toLowerCase_trim env <$> content) "other"))
    (fun _ => ret "unknown").

Definition analyzeSentiment (transcript : string) : M (string * Q) :=
  try_catch
    (let! response := external (OpenAICompletion Sentiment transcript)
                        (fun tr => openai_completions_create env tr Sentiment transcript) in
     let content := or_string response "" in
     match JSON_parse env content with
     | None => throw "SyntaxError"
     | Some parsed =>
       ret (or_string (parsed_sentiment parsed) "neutral",
            default 0%Q (parsed_score parsed))
     end)
    (fun _ => ret ("neutral", 0%Q)).

End WithEnv.
End OpenAI.


(** ** Helpers: [src/utils/helpers.ts] *)

Module Helpers.
Import Js Types World ReservationModel.

(** [formatTimeForDisplay], on the two numbers the time string splits into. *)
Definition formatTimeForDisplay (time : Time) : string :=
  let period := if 12 <=? hours time then "PM" else "AM" in
  let displayHours := if Z.rem (hours time) 12 =? 0 then 12 else Z.rem (hours time) 12 in
  if minutes time =? 0
  then pretty displayHours +:+ " " +:+ period
  else pretty displayHours +:+ ":" +:+ padStart2 (minutes time) +:+ " " +:+ period.

(** [validatePartySize]: [None] when valid, the error otherwise. *)
Definition validatePartySize (maxSize : Z) (size : JsNumber) : option string :=
  match size with
  | None => Some "party size must be a whole number"
  | Some n =>
    if n <? 1 then Some "Party size must be at least 1 "
    else if maxSize <? n
    then Some ("Party size cannot exceed " +:+ pretty maxSize
               +:+ ".For larger groups, please call to speak with a manager.")
    else None
  end.

(** [String(v)] for an argument that may be absent. *)
Definition String_ (v : option JsValue) : string :=
  match v with
  | None => "undefined"
  | Some JsNull => "null"
  | Some (JsBool true) => "true"
  | Some (JsBool false) => "false"
  | Some (JsNum n) => pretty n
  | Some (JsStr s) => s
  end.

(** The leading decimal digits of a string; [acc] is the number read so far. *)
Fixpoint leadingDigits (s : string) (acc : option Z) : option Z :=
  match s with
  | EmptyString => acc
  | String a rest =>
    match digitValue a with
    | Some d => leadingDigits rest (Some (10 * default 0 acc + d))
    | None => acc
    end
  end.

Fixpoint skipSpaces (s : string) : string :=
  match s with
  | String " "%char rest => skipSpaces rest
  | _ => s
  end.

(** [parseInt(String(v))]: a number is read back as itself, a string by its
    sign and leading digits, anything else is [NaN]. *)
Definition parseInt (v : option JsValue) : JsNumber :=
  match v with
  | Some (JsNum n) => Some n
  | Some (JsStr s) =>
    match skipSpaces s with
    | String "-"%char rest => Z.opp <$> leadingDigits rest None
    | String "+"%char rest => leadingDigits rest None
    | s' => leadingDigits s' None
    end
  | _ => None
  end.

(** Truthiness of an argument. *)
Definition truthy (v : option JsValue) : bool :=
  match v with
  | None | Some JsNull => false
  | Some (JsBool b) => b
  | Some (JsNum n) => negb (n =? 0)
  | Some (JsStr s) => if decide (s = "") then false else true
  end.

End Helpers.


(** ** Conversation service: [src/services/conversation.ts] *)

Module Conversation.
Import Js Types World Helpers ReservationModel.

(** [reservationModel] is the default export of the reservation model, an
    object of functions: it has no [length], so [reservationModel.length]
    reads as [undefined]. *)
Definition reservationModel_length : JsNumber := None.

(** [x > 0] where [x] may be [undefined]. *)
Definition gt_zero (x : JsNumber) : bool :=
  match x with
  | Some n => 0 <? n
  | None => false
  end.

(** The line break inside the greeting templates, and the indentation that
    follows it in the source. *)
Definition newline : string := String (ascii_of_nat 10) EmptyString.

Definition indent : string := "    ".

Definition roleName (r : Role) : string :=
  match r with
  | system => "system"
  | user => "user"
  | assistant => "assistant"
  | tool => "tool"
  end.

(** [messageHistory.map(m => `[${m.role}]: ${m.content}`).join('\n')] *)
Definition flattenTranscript (history : list Message) : string :=
  String.concat newline
    ((fun m => "[" +:+ roleName (role m) +:+ "]: " +:+ default "undefined" (content m))
       <$> history).

Definition initialState : SessionState :=
  mkSessionState Greeting false None false false.

(** [customerModel.incrementReservation] and [reservationModel.cancle] are
    not among the functions the two models export: calling them throws. *)
Definition customerModel_incrementReservation (id : Z) : M unit :=
  throw "TypeError: customerModel.incrementReservation is not a function".

Definition reservationModel_cancle (id : JsNumber) (reason : option string)
    : M (option Reservation) :=
  throw "TypeError: reservationModel.cancle is not a function".

Section WithEnv.
Variable env : Env.

Definition initializeConversation (callSid fromNumber toNumber : string) : M Session :=
  let! customer := external (CustomerFindOrCreate fromNumber)
                     (fun tr => customerModel_findOrCreate env tr fromNumber) in
  let! upcomingReservations :=
    external (ReservationFindUpcomingByCustomer (customer_id customer))
      (fun tr => reservationModel_findUpcomingByCustomer env tr (customer_id customer)) in
  let! _ := external (CallLogCreate callSid fromNumber toNumber (customer_id customer))
              (fun tr => callLogModel_create env tr callSid fromNumber toNumber
                           (customer_id customer)) in
  let! now := ambient (clock env) in
  let session :=
    {| callSid := callSid;
       customer := Some customer;
       upcomingReservations := upcomingReservations;
       state := initialState;
       messageHistory := [];
       collectedData := ∅;
       createdAt := now |} in
  let! _ := redis_setSession callSid session in
  ret session.

Definition generateGreeting (callSid : string) : M GreetingResponse :=
  let! session := redis_getSession callSid in
  match session with
  | None => throw ("Session not found: " +:+ callSid)
  | Some session =>
    let businessName := or_string (BUSINESS_NAME env) "our clinic" in
    let customer := customer session in
    let reservations := upcomingReservations session in
    let named := truthy_string (customer ≫= full_name) in
    let! greeting :=
      if named && gt_zero reservationModel_length then
        match reservations with
        | nextRes :: _ =>
          ret (Some ("Hello " +:+ default "" (customer ≫= full_name)
                     +:+ "! Thank you for calling " +:+ businessName +:+ newline
                     +:+ indent +:+ "I see you have a reservation coming up "
                     +:+ toLocaleDateString env (reservation_date nextRes) +:+ " at"
                     +:+ newline
                     +:+ indent +:+ formatTimeForDisplay (reservation_time nextRes) +:+ "."
                     +:+ newline
                     +:+ indent +:+ "How can i help you today?"))
        | [] =>
          throw "TypeError: Cannot read properties of undefined (reading 'reservation_date')"
        end
      else if named then
        ret (Some ("Thank you for calling " +:+ businessName
                   +:+ "! I'm your AI assistant and I can help" +:+ newline
                   +:+ indent +:+ "you make a reservation or answer questions about clinic. "
                   +:+ "How can i help you today?"))
      else ret None in
    let! audio :=
      try_catch
        (let! a := external (TextToSpeech greeting)
                     (fun tr => ttsService_textToSpeech env tr greeting) in
         ret (Some a))
        (fun _ => ret None) in
    let! now := ambient (clock env) in
    let! _ := redis_addMessage callSid (mkMessage assistant greeting now) in
    let! _ := redis_updateSessionState callSid
                (mkSessionStateUpdates (Some Listening) None None None) in
    ret (mkGreetingResponse greeting audio)
  end.

Definition handleCheckAvailability (args : gmap string JsValue) : M FunctionExecutionResult :=
  let date := String_ (args !! "date") in
  let time := String_ (args !! "time") in
  let partySize := parseInt (args !! "party_size") in
  let! validation := ambient (fun tr => validateReservation env tr date time) in
  match validation with
  | Some e => ret (failed e)
  | None =>
    match validatePartySize (MAX_PARTY_SIZE env) partySize with
    | Some e => ret (failed e)
    | None =>
      let! availability :=
        external (ReservationCheckAvailability date time partySize)
          (fun tr => reservationModel_checkAvailability env tr date time partySize) in
      ret (succeeded (DataAvailability availability))
    end
  end.

Definition handleCreateReservation (callSid : string) (session : Session)
    (args : gmap string JsValue) : M FunctionExecutionResult :=
  match customer session with
  | None => ret (failed "Customer not found")
  | Some c =>
    let date := String_ (args !! "date") in
    let time := String_ (args !! "time") in
    let partySize := parseInt (args !! "party_size") in
    let specialRequests :=
      if truthy (args !! "specialRequests")
      then Some (String_ (args !! "special_requests")) else None in
    try_catch
      (let! reservation :=
         external (ReservationCreate (customer_id c) date time partySize specialRequests)
           (fun tr => reservationModel_create env tr (customer_id c) date time partySize
                        specialRequests) in
       let! _ := customerModel_incrementReservation (customer_id c) in
       let! _ := external (CallLogLinkReservation callSid (reservation_id reservation))
                   (fun tr => callLogModel_linkReservation env tr callSid
                                (reservation_id reservation)) in
       ret (succeeded (DataReservation (reservation_id reservation)
                         (Some (confirmation_code reservation))
                         (reservation_date reservation) (reservation_time reservation)
                         (party_size reservation))))
      (fun _ => ret (failed "Failed to create reservation"))
  end.

Definition handleModifyReservation (args : gmap string JsValue) : M FunctionExecutionResult :=
  let reservationId := parseInt (args !! "reservation_id") in
  let updates :=
    {| mod_date :=
         if truthy (args !! "new_date") then Some (String_ (args !! "new_date")) else None;
       mod_time :=
         if truthy (args !! "new_time") then Some (String_ (args !! "new_time")) else None;
       mod_partySize :=
         if truthy (args !! "new_party_size")
         then Some (parseInt (args !! "new_party_size")) else None;
       mod_specialRequests :=
         if truthy (args !! "special_requests")
         then Some (String_ (args !! "special_requests")) else None |} in
  try_catch
    (let! reservation :=
       external (ReservationModify reservationId updates)
         (fun tr => reservationModel_modify env tr reservationId updates) in
     match reservation with
     | None => ret (failed "Reservation not found")
     | Some r =>
       ret (succeeded (DataReservation (reservation_id r) None (reservation_date r)
                         (reservation_time r) (party_size r)))
     end)
    (fun _ => ret (failed "Failed to modify reservation")).

Definition handleCancleReservation (args : gmap string JsValue) : M FunctionExecutionResult :=
  let reservationId := parseInt (args !! "reservation_id") in
  let reason := if truthy (args !! "reason") then Some (String_ (args !! "reason")) else None in
  try_catch
    (let! reservation := reservationModel_cancle reservationId reason in
     match reservation with
     | None => ret (failed "Reservation not found")
     | Some _ => ret (succeeded (DataCancelled reservationId))
     end)
    (fun _ => ret (failed "Failed to cancle reservation")).

(** The mapping over the rows reads [r.reservation.time]; a row has no
    [reservation] field, so the first row makes it throw. *)
Definition handleGetReservations (session : Session) : M FunctionExecutionResult :=
  match customer session with
  | None => ret (succeeded (DataReservations []))
  | Some c =>
    let! reservations :=
      external (ReservationFindUpcomingByCustomer (customer_id c))
        (fun tr => reservationModel_findUpcomingByCustomer env tr (customer_id c)) in
    match reservations with
    | [] => ret (succeeded (DataReservations []))
    | _ :: _ => throw "TypeError: Cannot read properties of undefined (reading 'time')"
    end
  end.

Definition handleUpdateName (session : Session) (args : gmap string JsValue)
    : M FunctionExecutionResult :=
  match customer session with
  | None => ret (failed "Customer not found")
  | Some c =>
    let name := String_ (args !! "name") in
    let! _ := external (CustomerUpdateName (customer_id c) name)
                (fun tr => customerModel_updateName env tr (customer_id c) name) in
    let! _ := redis_updateSession (callSid session)
                (mkSessionUpdates
                   (Some (Some (mkCustomer (customer_id c) (phone c) (Some name)
                                  (total_reservations c))))
                   None None) in
    ret (succeeded (DataName name))
  end.

Definition handleFaq (args : gmap string JsValue) : M FunctionExecutionResult :=
  let question := String_ (args !! "question") in
  let! faq := external (FaqFindMatch question)
                (fun tr => faqModel_findMatch env tr question) in
  match faq with
  | None =>
    ret (succeeded (DataFaq false
           "No specific information found. Please transfer to staff if needed."))
  | Some answer => ret (succeeded (DataFaq true answer))
  end.

Definition handleTransfer (callSid : string) (args : gmap string JsValue)
    : M FunctionExecutionResult :=
  let reason := String_ (args !! "reason") in
  let! _ := external (CallLogMarkTransferred callSid reason)
              (fun tr => callLogModel_markTransferred env tr callSid reason) in
  ret (mkFunctionExecutionResult true (Some DataTransferring) None None (Some true)
         (Some reason)).

Definition handleEndCall (callSid : string) (session : Session) : M FunctionExecutionResult :=
  let! refreshedSession := redis_getSession callSid in
  let transcript :=
    or_string (flattenTranscript <$> (messageHistory <$> refreshedSession)) "" in
  let! summary := OpenAI.generateCallSummary env transcript in
  let! intent := OpenAI.detectIntent env transcript in
  let! sentiment := OpenAI.analyzeSentiment env transcript in
  let completion :=
    {| cc_status := "completed";
       cc_durationSeconds := None;
       cc_transcript := Some transcript;
       cc_summary := Some summary;
       cc_intent := Some intent;
       cc_sentiment := Some (fst sentiment);
       cc_sentimentScore := Some (snd sentiment) |} in
  let! _ := external (CallLogCompleteCall callSid completion)
              (fun tr => callLogModel_completeCall env tr callSid completion) in
  let! _ := redis_deleteSession callSid in
  ret (mkFunctionExecutionResult true (Some DataEnding) None (Some true) None None).

Definition executeFunctionCall (callSid name : string) (args : gmap string JsValue)
    : M FunctionExecutionResult :=
  let! session := redis_getSession callSid in
  match session with
  | None => ret (failed "Session not found")
  | Some session =>
    if decide (name = "check_availability") then handleCheckAvailability args
    else if decide (name = "create_reservation")
    then handleCreateReservation callSid session args
    else if decide (name = "modify_reservation") then handleModifyReservation args
    else if decide (name = "cancle_reservation") then handleCancleReservation args
    else if decide (name = "get_customer_name") then handleGetReservations session
    else if decide (name = "update_customer_name") then handleUpdateName session args
    else if decide (name = "answer_faq") then handleFaq args
    else if decide (name = "transfer_to_human") then handleTransfer callSid args
    else if decide (name = "end_call") then handleEndCall callSid session
    else ret (failed ("Unknown function: " +:+ name))
  end.

Definition processInput (callSid userInput : string) : M ConversationResponse :=
  let! session := redis_getSession callSid in
  match session with
  | None => throw ("Session not found: " +:+ callSid)
  | Some session =>
    let! now := ambient (clock env) in
    let! _ := redis_addMessage callSid (mkMessage user (Some userInput) now) in
    let! updatedSession := redis_getSession callSid in
    match updatedSession with
    | None => throw "Session lost during processing"
    | Some updatedSession =>
      let! currentDate := ambient (today env) in
      let context :=
        {| businessName := or_string (BUISINESS_NAME env) "our clinic";
           customerPhone := or_string (phone <$> customer session) "unknown";
           customerName :=
             if truthy_string (customer session ≫= full_name)
             then customer session ≫= full_name else None;
           reservationCount := default 0 (total_reservations <$> customer session);
           currentDate := currentDate;
           ctx_openingHour := or_string (BUISINESS_OPENING_HOUR env) "08:00";
           ctx_closingHour := or_string (BUISINESS_CLOSING_HOUR env) "16:00" |} in
      let! response :=
        external (OpenAIChat (messageHistory updatedSession) context)
          (fun tr => openai_chat env tr (messageHistory updatedSession) context) in
      let! outcome :=
        match functionCall response with
        | Some fc =>
          let! result := executeFunctionCall callSid (fc_name fc) (fc_arguments fc) in
          let! responseText :=
            external (OpenAIContinue (messageHistory updatedSession) (fc_name fc) result
                        (fc_id fc))
              (fun tr => openai_continueAfterFunctionCall env tr
                           (messageHistory updatedSession) (fc_name fc) result (fc_id fc)
                           context) in
          ret (responseText, default false (shouldEnd result),
               default false (shouldTransfer result), transferReason result)
        | None => ret (or_string (chat_content response) "", false, false, None)
        end in
      let '(responseText, shouldEnd, shouldTransfer, transferReason) := outcome in
      let! audio :=
        if decide (responseText = "") then ret None
        else
          let! audio :=
            try_catch
              (let! a := external (TextToSpeech (Some responseText))
                           (fun tr => ttsService_textToSpeech env tr (Some responseText)) in
               ret (Some a))
              (fun _ => ret None) in
          let! now := ambient (clock env) in
          let! _ := redis_addMessage callSid (mkMessage assistant (Some responseText) now) in
          let! _ := external (CallLogAppendToTranscript callSid "user" userInput)
                      (fun tr => callLogModel_appendToTranscript env tr callSid "user"
                                   userInput) in
          let! _ := external (CallLogAppendToTranscript callSid "assistant" responseText)
                      (fun tr => callLogModel_appendToTranscript env tr callSid "assistant"
                                   responseText) in
          ret audio in
      ret (mkConversationResponse responseText audio shouldEnd shouldTransfer transferReason)
    end
  end.


End WithEnv.
End Conversation.


(** ** Media-stream connection: [setupMediaStreamWebSocket] in
    [src/routes/twilio.ts]

    One WebSocket connection owns the variables [callSid], [streamSid] and
    [isProcessing].  A handler runs without interruption up to its first
    [await]; the asynchronous [onTranscript] callback is therefore split at
    its [await] of [processInput]: [onTranscript_enter] is the part that runs
    when the final transcript is delivered, [onTranscript_resume] the part
    that runs when the awaited turn settles.  [pending] records the call
    identifier and the text that the suspended callback holds; the effects
    of the turn are accounted for at the moment it settles. *)

Module Twilio.
Import Js Types World.

Record Connection : Type := mkConnection {
  conn_callSid : option string;
  conn_streamSid : option string;
  isProcessing : bool;
  pending : option (string * string);
}.

Definition newConnection : Connection := mkConnection None None false None.

Inductive StreamEvent : Type :=
| Start (callSid streamSid : option string)
| FinalTranscript (text : string)
| InterimTranscript (text : string)
| Media
| Stop
| TurnSettles.

(** [if (!callSid || isProcessing) return; ... isProcessing = true;] *)
Definition onTranscript_enter (c : Connection) (text : string) : Connection :=
  match conn_callSid c with
  | Some callSid =>
    if negb (truthy_string (Some callSid)) || isProcessing c then c
    else mkConnection (conn_callSid c) (conn_streamSid c) true (Some (callSid, text))
  | None => c
  end.

Section WithEnv.
Variable env : Env.

Definition sendAudioResponse (streamSid : string) (audio : Buffer) : M unit :=
  external (MediaSend streamSid audio) (fun tr => ws_send env tr streamSid audio).

Definition hangupCall (callSid : string) : M unit :=
  try_catch
    (external (CallHangup callSid) (fun tr => twilioClient_update env tr callSid))
    (fun _ => ret tt).

Definition transferCall (callSid : string) : M unit :=
  if truthy_string (TRANSFER_NUMBER env) then
    try_catch
      (external (CallTransfer callSid) (fun tr => twilioClient_update env tr callSid))
      (fun _ => ret tt)
  else ret tt.

(** The [try] block of [onTranscript], from the [await] on. *)
Definition respond (c : Connection) (callSid text : string) : M unit :=
  let! response := Conversation.processInput env callSid text in
  let! _ :=
    match audio response with
    | Some a =>
      if truthy_string (conn_streamSid c)
      then sendAudioResponse (default "" (conn_streamSid c)) a
      else ret tt
    | None => ret tt
    end in
  if resp_shouldEnd response && truthy_string (conn_callSid c)
  then hangupCall (default "" (conn_callSid c))
  else if resp_shouldTransfer response && truthy_string (conn_callSid c)
  then transferCall (default "" (conn_callSid c))
  else ret tt.

(** [try { ... } catch (error) { log } finally { isProcessing = false }] *)
Definition onTranscript_resume (c : Connection) : M Connection :=
  match pending c with
  | Some (callSid, text) =>
    let! _ := try_catch (respond c callSid text) (fun _ => ret tt) in
    ret (mkConnection (conn_callSid c) (conn_streamSid c) false None)
  | None => ret c
  end.

(** The [start] message: the identifiers are stored, the transcription
    callbacks installed, and the greeting generated and sent. *)
Definition onStart (c : Connection) (callSid streamSid : option string) : M Connection :=
  let c' := mkConnection callSid streamSid (isProcessing c) (pending c) in
  let! _ :=
    if truthy_string callSid then
      try_catch
        (let! greeting := Conversation.generateGreeting env (default "" callSid) in
         match greeting_audio greeting with
         | Some a =>
           if truthy_string streamSid
           then sendAudioResponse (default "" streamSid) a
           else ret tt
         | None => ret tt
         end)
        (fun _ => ret tt)
    else ret tt in
  ret c'.

Definition handle (c : Connection) (ev : StreamEvent) : M Connection :=
  match ev with
  | Start callSid streamSid => onStart c callSid streamSid
  | FinalTranscript text => ret (onTranscript_enter c text)
  | InterimTranscript _ => ret c
  | Media => ret c
  | Stop => ret c
  | TurnSettles => onTranscript_resume c
  end.

Fixpoint run (c : Connection) (evs : list StreamEvent) : M Connection :=
  match evs with
  | [] => ret c
  | ev :: rest => let! c' := handle c ev in run c' rest
  end.

End WithEnv.

End Twilio.

(** ** Vocabulary of the properties *)

Module Expected.
Import Js Types World Conversation.

(** The greeting that names neither the caller nor a reservation. *)
Definition genericGreeting (businessName : string) : string :=
  "Thank you for calling " +:+ businessName
  +:+ "! I'm your AI assistant and I can help" +:+ newline
  +:+ indent +:+ "you make a reservation or answer questions about clinic. "
  +:+ "How can i help you today?".

(** What the three analysis helpers make of the answer of the reasoning
    service. *)
Definition summaryOf (answer : Result (option string)) : string :=
  match answer with
  | Ok content => or_string content "unable to generate summary"
  | Throw _ => "Unable to generate summary "
  end.

Definition intentOf (env : Env) (answer : Result (option string)) : string :=
  match answer with
  | Ok content => or_string (toLowerCase_trim env <$> content) "other"
  | Throw _ => "unknown"
  end.

Definition sentimentOf (env : Env) (answer : Result (option string)) : string * Q :=
  match answer with
  | Ok content =>
    match JSON_parse env (or_string content "") with
    | Some parsed =>
      (or_string (parsed_sentiment parsed) "neutral", default 0%Q (parsed_score parsed))
    | None => ("neutral", 0%Q)
    end
  | Throw _ => ("neutral", 0%Q)
  end.

(** The transcript that [handleEndCall] flattens from the stored session. *)
Definition transcriptOf (callSid : string) (w : World) : string :=
  or_string (flattenTranscript <$> (messageHistory <$> Redis.getSession callSid (sessions w)))
    "".

(** The trace once the first [n] of the three analysis requests are out. *)
Definition analysed (w : World) (transcript : string) (n : nat) : list Event :=
  trace w ++ take n [ OpenAICompletion Summary transcript;
                      OpenAICompletion Intent transcript;
                      OpenAICompletion Sentiment transcript ].

(** The record that [handleEndCall] hands to [completeCall]. *)
Definition endCallRecord (transcript summary intent : string) (sentiment : string * Q)
    : CompleteCallData :=
  {| cc_status := "completed";
     cc_durationSeconds := None;
     cc_transcript := Some transcript;
     cc_summary := Some summary;
     cc_intent := Some intent;
     cc_sentiment := Some (fst sentiment);
     cc_sentimentScore := Some (snd sentiment) |}.

Definition endingResult : FunctionExecutionResult :=
  mkFunctionExecutionResult true (Some DataEnding) None (Some true) None None.




(** A run of turns: [processInput] on each final transcript in order,
    every one completing before the next starts. *)
Fixpoint converse (env : Env) (callSid : string) (inputs : list string)
    : M (list ConversationResponse) :=
  match inputs with
  | [] => ret []
  | userInput :: rest =>
    let! response := processInput env callSid userInput in
    let! responses := converse env callSid rest in
    ret (response :: responses)
  end.

(** A history entry without its timestamp. *)
Definition spoken (m : Message) : Role * option string := (role m, content m).

(** The entries that a run of turns is expected to add: for each turn the
    caller's words, then the reply unless it is empty. *)
Fixpoint dialogue (inputs : list string) (responses : list ConversationResponse)
    : list (Role * option string) :=
  match inputs, responses with
  | userInput :: inputs', response :: responses' =>
    (user, Some userInput) ::
    (if decide (text response = "") then [] else [(assistant, Some (text response))])
    ++ dialogue inputs' responses'
  | _, _ => []
  end.

(** The number of entries of a role in a history. *)
Definition entries (r : Role) (history : list Message) : nat :=
  length (filter (fun m => role m = r) history).

(** The delivery of a transcript by the transcription service: final or
    interim. *)
Definition delivered (t : bool * string) : Twilio.StreamEvent :=
  if fst t then Twilio.FinalTranscript (snd t) else Twilio.InterimTranscript (snd t).

(** The reasoning rounds asked for in a trace: the calls of [chat]. *)
Definition isChat (ev : Event) : bool :=
  match ev with
  | OpenAIChat _ _ => true
  | _ => false
  end.

Definition rounds (tr : list Event) : nat := length (filter (fun ev => isChat ev = true) tr).

(** [quiet w w']: from [w] to [w'] no session appeared, every session
    still stored has the history it had, and the trace grew by calls none of
    which is a reasoning round. *)
Definition quiet (w w' : World) : Prop :=
  (forall k s',
     Redis.getSession k (sessions w') = Some s' ->
     exists s, Redis.getSession k (sessions w) = Some s /\
               messageHistory s' = messageHistory s) /\
  exists evs, trace w' = trace w ++ evs /\ Forall (fun ev => isChat ev = false) evs.

(** A computation that is quiet from every world. *)
Definition keeps {A : Type} (m : M A) : Prop := forall w, quiet w (snd (m w)).

(** The entries a completed turn adds to the history: the caller's words,
    and the reply unless it is empty. *)
Definition turnEntries (userInput reply : string) (t1 t2 : Z) : list Message :=
  mkMessage user (Some userInput) t1 ::
  (if decide (reply = "") then [] else [mkMessage assistant (Some reply) t2]).

End Expected.

(** ** Sample environments and sessions *)

Module Samples.
Import Js Types World ReservationModel.

Definition ada : Customer := mkCustomer 7 "+15550100" (Some "Ada Lovelace") 3.

Definition stranger : Customer := mkCustomer 8 "+15550101" None 0.

Definition dinner : Reservation :=
  mkReservation 41 "2025-06-01" (mkTime 19 0) 4 "confirmed" "K7M2QX".

(** Every outside call succeeds; the reasoning service answers a plain
    sentence and asks for no action. *)
Definition calmEnv (caller : Customer) (upcoming : list Reservation) : Env :=
  {| BUSINESS_NAME := None;
     BUISINESS_NAME := None;
     BUISINESS_OPENING_HOUR := None;
     BUISINESS_CLOSING_HOUR := None;
     MAX_PARTY_SIZE := 20;
     TRANSFER_NUMBER := None;
     clock := fun tr => Z.of_nat (length tr);
     today := fun _ => "2025-05-20";
     toLocaleDateString := fun _ => "Sunday, June 1";
     toLowerCase_trim := fun s => s;
     JSON_parse := fun _ => None;
     validateReservation := fun _ _ _ => None;
     customerModel_findOrCreate := fun _ _ => Ok caller;
     customerModel_updateName := fun _ _ _ => Ok tt;
     reservationModel_findUpcomingByCustomer := fun _ _ => Ok upcoming;
     reservationModel_checkAvailability := fun _ _ _ _ =>
       Ok (mkAvailability true (Some 0) (Some 2) None None);
     reservationModel_create := fun _ _ _ _ _ _ => Throw "not used";
     reservationModel_modify := fun _ _ _ => Ok None;
     callLogModel_create := fun _ _ _ _ _ => Ok tt;
     callLogModel_completeCall := fun _ _ _ => Ok tt;
     callLogModel_appendToTranscript := fun _ _ _ _ => Ok tt;
     callLogModel_markTransferred := fun _ _ _ => Ok tt;
     callLogModel_linkReservation := fun _ _ _ => Ok tt;
     faqModel_findMatch := fun _ _ => Ok None;
     openai_chat := fun _ _ _ => Ok (mkChatResponse (Some "Of course.") None);
     openai_continueAfterFunctionCall := fun _ _ _ _ _ _ => Ok "Done.";
     openai_completions_create := fun _ _ _ => Throw "503";
     ttsService_textToSpeech := fun _ _ => Ok [];
     ws_send := fun _ _ _ => Ok tt;
     twilioClient_update := fun _ _ => Ok tt |}.

Definition emptyWorld : World := mkWorld ∅ [].

Definition sessionOf (sid : string) (caller : option Customer) (upcoming : list Reservation)
    (history : list Message) : Session :=
  mkSession sid caller upcoming Conversation.initialState history ∅ 0.

Definition worldWith (s : Session) : World := mkWorld {[ callSid s := s ]} [].

(** The world after call [CA1] of a known caller has started and has been
    greeted. *)
Definition greetedWorld : World :=
  snd (Conversation.generateGreeting (calmEnv ada [dinner]) "CA1"
         (snd (Conversation.initializeConversation (calmEnv ada [dinner]) "CA1"
                 "+15550100" "+15550199" emptyWorld))).

(** The values that the start, the greeting and two turns of that call
    return. *)
Definition sampleStart : Session * World :=
  (mkSession "CA1" (Some ada) [dinner] Conversation.initialState [] ∅ 3,
   snd (Conversation.initializeConversation (calmEnv ada [dinner]) "CA1"
          "+15550100" "+15550199" emptyWorld)).

Definition sampleGreeting : GreetingResponse :=
  mkGreetingResponse (Some (Expected.genericGreeting "our clinic")) (Some []).

Definition sampleTurns : list ConversationResponse * World :=
  ([ mkConversationResponse "Of course." (Some []) false false None;
     mkConversationResponse "Of course." (Some []) false false None ],
   snd (Expected.converse (calmEnv ada [dinner]) "CA1" ["hello"; "thanks"] greetedWorld)).

(** A call in progress, and the session a second start of it would write. *)
Definition liveSession : Session :=
  sessionOf "CA1" (Some ada) [dinner]
    [mkMessage assistant (Some "Hello") 1; mkMessage user (Some "Hi") 2].

Definition restartedSession : Session := sessionOf "CA1" (Some ada) [dinner] [].

End Samples.


(** * Properties *)

(** ** The availability check *)

Section TimeStrings.
Import Js ReservationModel.

(** Splitting the string built for a slot gives back its hour and minute:
    the recursive call of [checkAvailability] sees the time that the loop
    computed. *)
Lemma splitTime_renderTime t :
  0 <= hours t < 24 -> 0 <= minutes t < 60 ->
  splitTime (renderTime t) = Some t.
Proof.
  intros Hh Hm. destruct t as [h m]; simpl in *.
  assert (Hall : roundTrips = true) by (vm_compute; reflexivity).
  unfold roundTrips in Hall.
  rewrite forallb_forall in Hall.
  assert (Hin : forall x n, 0 <= x < n -> In x (seqZ 0 n)).
  { intros x n Hx. apply list_elem_of_In, elem_of_seqZ. lia. }
  specialize (Hall h (Hin h 24 Hh)). rewrite forallb_forall in Hall.
  specialize (Hall m (Hin m 60 Hm)). by apply bool_decide_eq_true in Hall.
Qed.

End TimeStrings.

Section AvailabilityFacts.
Import Js ReservationModel.
Variable cfg : Config.
Variable db : Db.

Abbreviation check := (checkAvailability cfg db).

(** One unfolding of [checkAvailability], by the status of the slot. *)
Lemma checkAvailability_step fuel date t ps :
  check (S fuel) date t ps =
  match slotStatus cfg db date t with
  | QueryFails =>
    match blocked_times db date t with
    | Throw e => Some (Throw e)
    | Ok _ =>
      match reservations_count db date t with
      | Throw e => Some (Throw e)
      | Ok _ => None
      end
    end
  | Blocked =>
    Some (Ok (mkAvailability false None None
                (Some (or_string (default None (head (match blocked_times db date t with
                                                      | Ok rows => rows | Throw _ => [] end)))
                                 "this date/time is not available")) None))
  | Open =>
    match reservations_count db date t with
    | Ok bookings => Some (Ok (mkAvailability true (Some bookings) (Some (maxPerSlot cfg)) None None))
    | Throw e => Some (Throw e)
    end
  | FullyBooked =>
    match findAlternativeSlots cfg (check fuel) date t 3 ps with
    | None => None
    | Some (Throw e) => Some (Throw e)
    | Some (Ok alternatives) =>
      Some (Ok (mkAvailability false
                  (match reservations_count db date t with Ok b => Some b | Throw _ => None end)
                  (Some (maxPerSlot cfg)) (Some "This time slot is fully booked")
                  (Some alternatives)))
    end
  end.
Proof.
  unfold slotStatus; simpl.
  destruct (blocked_times db date t) as [[|row rows]|e]; try reflexivity.
  destruct (reservations_count db date t) as [bookings|e]; try reflexivity.
  destruct (maxPerSlot cfg <=? bookings); reflexivity.
Qed.






(** One turn of the loop. *)
Lemma probe_cons chk date t count ps off rest acc :
  probe cfg chk date t count ps (off :: rest) acc =
  if count <=? Z.of_nat (length acc) then Some (Ok acc)
  else if inBusinessHours cfg (shift t off) then
    match chk date (shift t off) ps with
    | None => None
    | Some (Throw e) => Some (Throw e)
    | Some (Ok availability) =>
      if available availability
      then probe cfg chk date t count ps rest (acc ++ [mkSlot date (shift t off) true])
      else probe cfg chk date t count ps rest acc
    end
  else probe cfg chk date t count ps rest acc.
Proof. reflexivity. Qed.


(** Two neighbouring slots, both fully booked and both inside the opening
    hours, send the check back and forth between them: no recursion budget
    is enough for it to return a value. *)
Lemma checkAvailability_ping_pong date t ps :
  slotStatus cfg db date t = FullyBooked ->
  slotStatus cfg db date (shift t 1) = FullyBooked ->
  inBusinessHours cfg t = true ->
  inBusinessHours cfg (shift t 1) = true ->
  forall fuel r,
    check fuel date t ps <> Some (Ok r) /\
    check fuel date (shift t 1) ps <> Some (Ok r).
Proof.
  intros St St1 Ht Ht1 fuel.
  induction fuel as [|fuel IH]; intros r; [split; discriminate|].
  rewrite !checkAvailability_step, St, St1.
  unfold findAlternativeSlots, offsets.
  assert (Hback : shift (shift t 1) (-1) = t).
  { destruct t as [h m]. unfold shift; simpl. f_equal. lia. }
  split.
  - rewrite probe_cons. simpl length. simpl Z.leb. rewrite Ht1.
    destruct (check fuel date (shift t 1) ps) as [[av|e]|] eqn:Hc; try discriminate.
    exfalso. by apply (proj2 (IH av)).
  - assert (Hstuck : forall acc rest, (length acc <= 1)%nat ->
              forall alts, probe cfg (check fuel) date (shift t 1) 3 ps (-1 :: rest) acc
                           <> Some (Ok alts)).
    { intros acc rest Hlen alts. rewrite probe_cons.
      destruct (Z.leb_spec 3 (Z.of_nat (length acc))) as [Hle|_]; [lia|].
      rewrite Hback, Ht.
      destruct (check fuel date t ps) as [[av|e]|] eqn:Hc; try discriminate.
      exfalso. by apply (proj1 (IH av)). }
    clear IH. rewrite probe_cons. simpl length. simpl Z.leb.
    destruct (inBusinessHours cfg (shift (shift t 1) 1)).
    + destruct (check fuel date (shift (shift t 1) 1) ps) as [[av|e]|];
        try discriminate.
      destruct (available av).
      * destruct (probe cfg _ date (shift t 1) 3 ps _ _) as [[alts|e]|] eqn:Hp;
          try discriminate.
        exfalso. revert Hp. apply Hstuck. simpl. lia.
      * destruct (probe cfg _ date (shift t 1) 3 ps _ _) as [[alts|e]|] eqn:Hp;
          try discriminate.
        exfalso. revert Hp. apply Hstuck. simpl. lia.
    + destruct (probe cfg _ date (shift t 1) 3 ps _ _) as [[alts|e]|] eqn:Hp;
        try discriminate.
      exfalso. revert Hp. apply Hstuck. simpl. lia.
Qed.

(** A store that answers every query never makes the check throw. *)
Lemma checkAvailability_no_throw :
  (forall date t, slotStatus cfg db date t <> QueryFails) ->
  forall fuel date t ps e, check fuel date t ps <> Some (Throw e).
Proof.
  intros Hdb fuel. induction fuel as [|fuel IH]; intros date t ps e; [discriminate|].
  rewrite checkAvailability_step.
  destruct (slotStatus cfg db date t) eqn:St; [by destruct (Hdb date t)|discriminate| |].
  - destruct (reservations_count db date t) eqn:Hc; [discriminate|].
    unfold slotStatus in St. destruct (blocked_times db date t) as [[|? ?]|]; try discriminate.
    rewrite Hc in St. discriminate.
  - assert (Hp : forall offs acc e',
              probe cfg (check fuel) date t 3 ps offs acc <> Some (Throw e')).
    { induction offs as [|off offs IHo]; intros acc e'; simpl; [discriminate|].
      destruct (3 <=? Z.of_nat (length acc)); [discriminate|].
      destruct (_ && _); [|apply IHo].
      destruct (check fuel date _ ps) as [[av|e'']|] eqn:Hc; [|by destruct (IH _ _ _ _ Hc)|discriminate].
      destruct (available av); apply IHo. }
    unfold findAlternativeSlots.
    destruct (probe _ _ _ _ _ _ _ _) as [[alts|e']|] eqn:Hq; try discriminate.
    by destruct (Hp _ _ _ Hq).
Qed.

End AvailabilityFacts.

Section AvailabilityClaims.
Import Js ReservationModel.

Lemma tableDb_answers cfg rows date t :
  slotStatus cfg (tableDb rows) date t <> QueryFails.
Proof.
  unfold slotStatus, tableDb; simpl.
  by destruct (maxPerSlot cfg <=? _).
Qed.

(** C3. The specification has the availability check terminate on every
    request, also when neighbouring slots are fully booked.  With the default
    settings and the 10:00 and 11:00 slots of a day both at capacity, the
    check of 10:00 asks for alternatives, the probe of 11:00 is a full
    [checkAvailability] that asks for alternatives of its own and probes
    10:00 again: whatever the recursion budget, the call never returns. *)
Theorem checkAvailability_diverges_on_full_neighbour :
  forall fuel,
    checkAvailability defaultConfig (tableDb twoSlotsFull) fuel
      "2025-06-01" (mkTime 10 0) 4 = None.
Proof.
  intros fuel.
  destruct (checkAvailability _ _ fuel _ _ _) as [[r|e]|] eqn:Hc; [| |reflexivity].
  - exfalso. revert Hc.
    by apply (checkAvailability_ping_pong defaultConfig (tableDb twoSlotsFull)
                "2025-06-01" (mkTime 10 0) 4).
  - exfalso. revert Hc.
    apply checkAvailability_no_throw. intros. apply tableDb_answers.
Qed.



End AvailabilityClaims.

(** ** The session store *)

Section StoreFacts.
Import Js Types World Redis.

Lemma getSession_setSession callSid session (store : gmap string Session) :
  getSession callSid (setSession callSid session store) = Some session.
Proof. unfold getSession, setSession. apply lookup_insert_eq. Qed.

Lemma getSession_setSession_ne callSid other session (store : gmap string Session) :
  callSid <> other ->
  getSession other (setSession callSid session store) = getSession other store.
Proof. intros Hne. unfold getSession, setSession. by apply lookup_insert_ne. Qed.

Lemma getSession_deleteSession callSid (store : gmap string Session) :
  getSession callSid (deleteSession callSid store) = None.
Proof. unfold getSession, deleteSession. apply lookup_delete_eq. Qed.


Lemma getSession_addMessage callSid message (store : gmap string Session) :
  getSession callSid (addMessage callSid message store) =
  (fun session => pushMessage session message) <$> getSession callSid store.
Proof.
  unfold addMessage. destruct (getSession callSid store) as [session|] eqn:Hs; simpl.
  - apply getSession_setSession.
  - exact Hs.
Qed.

End StoreFacts.

Section SessionCreation.
Import Js Types World Redis Conversation Samples.

(** C2, as the specification states it, fails on [setSession]: writing a
    session under a call identifier that already has one returns normally
    and replaces the stored session. *)
Lemma setSession_overwrites_live_session :
  getSession "CA1" (sessions (worldWith liveSession)) = Some liveSession /\
  getSession "CA1" (setSession "CA1" restartedSession (sessions (worldWith liveSession)))
    = Some restartedSession /\
  restartedSession <> liveSession.
Proof.
  split; [|split]; [apply lookup_singleton_eq|apply getSession_setSession|discriminate].
Qed.

(** C2, amended.  [setSession] creates or updates: whatever is stored, the
    write succeeds and the session read back is the one just written, while
    the other calls keep theirs; a call identifier never has two sessions.
    [initializeConversation] does not look at the store before writing: when
    its three outside calls succeed it stores a fresh session with an empty
    history, whether or not the call already had one. *)
Theorem session_creation_upserts env callSid fromNumber toNumber w c upcoming :
  customerModel_findOrCreate env (trace w) fromNumber = Ok c ->
  reservationModel_findUpcomingByCustomer env
    (trace w ++ [CustomerFindOrCreate fromNumber]) (customer_id c) = Ok upcoming ->
  callLogModel_create env
    (trace w ++ [CustomerFindOrCreate fromNumber;
                 ReservationFindUpcomingByCustomer (customer_id c)])
    callSid fromNumber toNumber (customer_id c) = Ok tt ->
  (forall (store : gmap string Session) session,
     getSession callSid (setSession callSid session store) = Some session /\
     (forall other, callSid <> other ->
        getSession other (setSession callSid session store) = getSession other store)) /\
  exists fresh w',
    initializeConversation env callSid fromNumber toNumber w = (Ok fresh, w') /\
    messageHistory fresh = [] /\
    customer fresh = Some c /\
    sessions w' = setSession callSid fresh (sessions w) /\
    getSession callSid (sessions w') = Some fresh.
Proof.
  intros Hc Hu Hl. split.
  { intros store session. split.
    - apply getSession_setSession.
    - intros other Hne. by apply getSession_setSession_ne. }
  unfold initializeConversation, bind, external, ambient, redis_setSession, ret.
  simpl. rewrite Hc. simpl. rewrite Hu. simpl.
  rewrite <- app_assoc. simpl. rewrite Hl. simpl.
  eexists _, _. split; [reflexivity|]. simpl.
  repeat split. apply getSession_setSession.
Qed.

(** A second start of the sample call replaces its session. *)
Lemma session_creation_upserts_witness :
  exists fresh w',
    initializeConversation (calmEnv ada [dinner]) "CA1" "+15550100" "+15550199"
      (worldWith liveSession) = (Ok fresh, w') /\
    getSession "CA1" (sessions (worldWith liveSession)) <> Some fresh /\
    getSession "CA1" (sessions w') = Some fresh.
Proof.
  destruct (session_creation_upserts (calmEnv ada [dinner]) "CA1" "+15550100"
              "+15550199" (worldWith liveSession) ada [dinner] eq_refl eq_refl eq_refl)
    as (_ & fresh & w' & Hrun & Hh & _ & _ & Hget).
  exists fresh, w'. repeat split; [exact Hrun| |exact Hget].
  intros Hold. vm_compute in Hold. injection Hold as Hold.
  rewrite <- Hold in Hh. discriminate.
Defined.

End SessionCreation.

(** ** The conversation service *)

Section ConversationFacts.
Import Js Types World Redis OpenAI Conversation Expected.
Variable env : Env.

Lemma generateCallSummary_run transcript w :
  generateCallSummary env transcript w =
  (Ok (summaryOf (openai_completions_create env (trace w) Summary transcript)),
   mkWorld (sessions w) (trace w ++ [OpenAICompletion Summary transcript])).
Proof.
  unfold generateCallSummary, try_catch, bind, external, ret, summaryOf; simpl.
  by destruct (openai_completions_create env (trace w) Summary transcript).
Qed.

Lemma detectIntent_run transcript w :
  detectIntent env transcript w =
  (Ok (intentOf env (openai_completions_create env (trace w) Intent transcript)),
   mkWorld (sessions w) (trace w ++ [OpenAICompletion Intent transcript])).
Proof.
  unfold detectIntent, try_catch, bind, external, ret, intentOf; simpl.
  by destruct (openai_completions_create env (trace w) Intent transcript).
Qed.

Lemma analyzeSentiment_run transcript w :
  analyzeSentiment env transcript w =
  (Ok (sentimentOf env (openai_completions_create env (trace w) Sentiment transcript)),
   mkWorld (sessions w) (trace w ++ [OpenAICompletion Sentiment transcript])).
Proof.
  unfold analyzeSentiment, try_catch, bind, external, ret, throw, sentimentOf; simpl.
  destruct (openai_completions_create env (trace w) Sentiment transcript) as [content|e];
    [|reflexivity].
  by destruct (JSON_parse env (or_string content "")).
Qed.

(** [handleEndCall], run: the three analyses, then the completion record,
    then the deletion of the session unless writing the record threw. *)
Lemma handleEndCall_run callSid session w :
  let transcript := transcriptOf callSid w in
  let record :=
    endCallRecord transcript
      (summaryOf (openai_completions_create env (analysed w transcript 0) Summary transcript))
      (intentOf env (openai_completions_create env (analysed w transcript 1) Intent transcript))
      (sentimentOf env
         (openai_completions_create env (analysed w transcript 2) Sentiment transcript)) in
  handleEndCall env callSid session w =
  match callLogModel_completeCall env (analysed w transcript 3) callSid record with
  | Ok _ =>
    (Ok endingResult,
     mkWorld (deleteSession callSid (sessions w))
       (analysed w transcript 3 ++ [CallLogCompleteCall callSid record]))
  | Throw e =>
    (Throw e,
     mkWorld (sessions w) (analysed w transcript 3 ++ [CallLogCompleteCall callSid record]))
  end.
Proof.
  intros transcript record.
  unfold handleEndCall. unfold bind at 1. unfold redis_getSession at 1.
  fold (transcriptOf callSid w). fold transcript.
  unfold bind at 1. rewrite generateCallSummary_run.
  unfold bind at 1. rewrite detectIntent_run.
  unfold bind at 1. rewrite analyzeSentiment_run.
  unfold bind, external, redis_deleteSession, ret. simpl.
  unfold record, endCallRecord, endingResult, analysed. simpl.
  rewrite ?app_nil_r, <- ?app_assoc. simpl.
  by destruct (callLogModel_completeCall env _ callSid _).
Qed.




End ConversationFacts.

Section FinalizationClaims.
Import Js Types World Redis OpenAI Conversation Expected Samples.

(** C7. During finalization the summary, the intent and the sentiment are
    asked for in three separate requests, and each request that fails is
    replaced by its own placeholder whatever the other two do: the
    placeholder summary text, the intent [unknown], the sentiment [neutral]
    with score 0.  The completion record is handed to the call log in every
    case, and when the call log accepts it the call ends normally and the
    session is released. *)
Theorem finalization_tolerates_analysis_failures env callSid session w :
  exists summary intent sentiment,
    (forall e,
       openai_completions_create env (analysed w (transcriptOf callSid w) 0) Summary
         (transcriptOf callSid w) = Throw e ->
       summary = "Unable to generate summary ") /\
    (forall e,
       openai_completions_create env (analysed w (transcriptOf callSid w) 1) Intent
         (transcriptOf callSid w) = Throw e ->
       intent = "unknown") /\
    (forall e,
       openai_completions_create env (analysed w (transcriptOf callSid w) 2) Sentiment
         (transcriptOf callSid w) = Throw e ->
       sentiment = ("neutral", 0%Q)) /\
    trace (snd (handleEndCall env callSid session w)) =
      analysed w (transcriptOf callSid w) 3
      ++ [CallLogCompleteCall callSid
            (endCallRecord (transcriptOf callSid w) summary intent sentiment)] /\
    (forall u,
       callLogModel_completeCall env (analysed w (transcriptOf callSid w) 3) callSid
         (endCallRecord (transcriptOf callSid w) summary intent sentiment) = Ok u ->
       handleEndCall env callSid session w =
       (Ok endingResult,
        mkWorld (deleteSession callSid (sessions w))
          (analysed w (transcriptOf callSid w) 3
           ++ [CallLogCompleteCall callSid
                 (endCallRecord (transcriptOf callSid w) summary intent sentiment)]))).
Proof.
  exists (summaryOf (openai_completions_create env
                       (analysed w (transcriptOf callSid w) 0) Summary
                       (transcriptOf callSid w))),
         (intentOf env (openai_completions_create env
                          (analysed w (transcriptOf callSid w) 1) Intent
                          (transcriptOf callSid w))),
         (sentimentOf env (openai_completions_create env
                             (analysed w (transcriptOf callSid w) 2) Sentiment
                             (transcriptOf callSid w))).
  rewrite (handleEndCall_run env callSid session w).
  split; [|split; [|split; [|split]]].
  - by intros e ->.
  - by intros e ->.
  - by intros e ->.
  - by destruct (callLogModel_completeCall env _ callSid _).
  - intros u ->. reflexivity.
Qed.



End FinalizationClaims.

Section QuietFacts.
Import Js Types World Redis OpenAI Conversation Expected.

Lemma quiet_refl w : quiet w w.
Proof.
  split; [eauto|]. exists []. by rewrite app_nil_r.
Qed.

Lemma quiet_trans w1 w2 w3 : quiet w1 w2 -> quiet w2 w3 -> quiet w1 w3.
Proof.
  intros [H12 (e12 & T12 & F12)] [H23 (e23 & T23 & F23)]. split.
  - intros k s3 Hs3. destruct (H23 k s3 Hs3) as (s2 & Hs2 & E23).
    destruct (H12 k s2 Hs2) as (s1 & Hs1 & E12).
    exists s1. split; [done|congruence].
  - exists (e12 ++ e23). rewrite T23, T12, app_assoc. split; [done|].
    by apply Forall_app.
Qed.

Lemma keeps_ret {A} (a : A) : keeps (ret a).
Proof. intros w. apply quiet_refl. Qed.

Lemma keeps_throw {A} e : keeps (@throw A e).
Proof. intros w. apply quiet_refl. Qed.

Lemma keeps_bind {A B} (m : M A) (k : A -> M B) :
  keeps m -> (forall a, keeps (k a)) -> keeps (bind m k).
Proof.
  intros Hm Hk w. unfold bind. specialize (Hm w).
  destruct (m w) as [[a|e] w1]; simpl in *; [|done].
  eapply quiet_trans; [exact Hm|apply Hk].
Qed.

Lemma keeps_try_catch {A} (m : M A) (handler : string -> M A) :
  keeps m -> (forall e, keeps (handler e)) -> keeps (try_catch m handler).
Proof.
  intros Hm Hh w. unfold try_catch. specialize (Hm w).
  destruct (m w) as [[a|e] w1]; simpl in *; [done|].
  eapply quiet_trans; [exact Hm|apply Hh].
Qed.

Lemma keeps_external {A} ev (oracle : list Event -> Result A) :
  isChat ev = false -> keeps (external ev oracle).
Proof.
  intros Hev w. split; simpl; [eauto|].
  exists [ev]. split; [done|]. by constructor.
Qed.

Lemma keeps_ambient {A} (read : list Event -> A) : keeps (ambient read).
Proof. intros w. apply quiet_refl. Qed.

Lemma keeps_getSession callSid : keeps (redis_getSession callSid).
Proof. intros w. apply quiet_refl. Qed.

Lemma keeps_deleteSession callSid : keeps (redis_deleteSession callSid).
Proof.
  intros w. split; simpl; [|exists []; by rewrite app_nil_r].
  intros k s'. unfold getSession, deleteSession. rewrite lookup_delete.
  case_decide; [discriminate|eauto].
Qed.

Lemma keeps_updateSession callSid c :
  keeps (redis_updateSession callSid (mkSessionUpdates c None None)).
Proof.
  intros w. unfold redis_updateSession, updateSession.
  destruct (getSession callSid (sessions w)) as [s|] eqn:Hs; simpl;
    [|destruct w; apply quiet_refl].
  split; simpl; [|exists []; by rewrite app_nil_r].
  intros k s'. unfold getSession, setSession. rewrite lookup_insert.
  case_decide as Hk; [|eauto].
  intros [= <-]. subst k. exists s. split; [exact Hs|reflexivity].
Qed.

Lemma keeps_generateCallSummary env t : keeps (generateCallSummary env t).
Proof.
  apply keeps_try_catch; [|intros; apply keeps_ret].
  apply keeps_bind; [by apply keeps_external|intros; apply keeps_ret].
Qed.

Lemma keeps_detectIntent env t : keeps (detectIntent env t).
Proof.
  apply keeps_try_catch; [|intros; apply keeps_ret].
  apply keeps_bind; [by apply keeps_external|intros; apply keeps_ret].
Qed.

Lemma keeps_analyzeSentiment env t : keeps (analyzeSentiment env t).
Proof.
  apply keeps_try_catch; [|intros; apply keeps_ret].
  apply keeps_bind; [by apply keeps_external|intros c].
  cbv zeta. destruct (JSON_parse env (or_string c "")); [apply keeps_ret|apply keeps_throw].
Qed.

End QuietFacts.

Create HintDb keeps.

#[local] Hint Resolve keeps_ret keeps_throw keeps_ambient keeps_getSession
  keeps_deleteSession keeps_updateSession keeps_generateCallSummary
  keeps_detectIntent keeps_analyzeSentiment : keeps.

(** Breaks a goal [keeps m] down along the structure of [m]. *)
Ltac keeps_step :=
  match goal with
  | |- Expected.keeps (let _ := _ in _) => cbv zeta
  | |- Expected.keeps (World.bind _ _) => apply keeps_bind; [|intros ?]
  | |- Expected.keeps (World.try_catch _ _) => apply keeps_try_catch; [|intros ?]
  | |- Expected.keeps (World.external _ _) => apply keeps_external; reflexivity
  | |- Expected.keeps (match ?x with _ => _ end) => destruct x
  | |- Expected.keeps _ => solve [auto with keeps]
  end.

(** Case analysis on every scrutinee of the goal, innermost first. *)
Ltac crack :=
  repeat (cbv beta iota zeta;
          match goal with
          | |- context [match ?x with _ => _ end] =>
            lazymatch x with
            | context [match _ with _ => _ end] => fail
            | _ => destruct x
            end
          end);
  cbv beta iota zeta.

Section DispatchFacts.
Import Js Types World Redis OpenAI Conversation Expected.
Variable env : Env.

Lemma keeps_executeFunctionCall callSid name args :
  keeps (executeFunctionCall env callSid name args).
Proof.
  unfold executeFunctionCall.
  apply keeps_bind; [auto with keeps|intros [session|]]; [|auto with keeps].
  repeat case_decide.
  - unfold handleCheckAvailability. repeat keeps_step.
  - unfold handleCreateReservation, customerModel_incrementReservation. repeat keeps_step.
  - unfold handleModifyReservation. repeat keeps_step.
  - unfold handleCancleReservation, reservationModel_cancle. repeat keeps_step.
  - unfold handleGetReservations. repeat keeps_step.
  - unfold handleUpdateName. repeat keeps_step.
  - unfold handleFaq. repeat keeps_step.
  - unfold handleTransfer. repeat keeps_step.
  - unfold handleEndCall. repeat keeps_step.
  - auto with keeps.
Qed.

Lemma processInput_no_session callSid userInput w :
  getSession callSid (sessions w) = None ->
  processInput env callSid userInput w = (Throw ("Session not found: " +:+ callSid), w).
Proof.
  intros Hs. unfold processInput, bind, redis_getSession, throw. by rewrite Hs.
Qed.

Lemma rounds_app tr1 tr2 :
  rounds (tr1 ++ tr2) = (rounds tr1 + rounds tr2)%nat.
Proof. unfold rounds. by rewrite filter_app, length_app. Qed.

Lemma rounds_app_quiet tr evs :
  Forall (fun ev => isChat ev = false) evs ->
  rounds (tr ++ evs) = rounds tr.
Proof.
  intros Hevs. rewrite rounds_app.
  assert (rounds evs = 0%nat) as ->; [|lia].
  unfold rounds. induction Hevs as [|ev evs Hev _ IH]; [done|].
  rewrite filter_cons. rewrite decide_False by (rewrite Hev; discriminate). exact IH.
Qed.

Lemma quiet_rounds w w' : quiet w w' -> rounds (trace w') = rounds (trace w).
Proof. intros [_ (evs & -> & Hevs)]. by apply rounds_app_quiet. Qed.

Lemma rounds_snoc_chat tr messages context :
  rounds (tr ++ [OpenAIChat messages context]) = S (rounds tr).
Proof.
  rewrite rounds_app. unfold rounds at 2.
  rewrite filter_cons, decide_True by reflexivity. simpl. lia.
Qed.

(** What one call of [processInput] does to a live session: exactly one
    reasoning round is asked for, and if the call returns while the session
    is still stored, its history has grown by the entries of the turn. *)
Lemma processInput_effect callSid userInput w s :
  getSession callSid (sessions w) = Some s ->
  rounds (trace (snd (processInput env callSid userInput w)))
    = S (rounds (trace w)) /\
  forall resp w',
    processInput env callSid userInput w = (Ok resp, w') ->
    forall s', getSession callSid (sessions w') = Some s' ->
    exists t1 t2,
      messageHistory s' = messageHistory s ++ turnEntries userInput (text resp) t1 t2.
Proof.
  intros Hs.
  cut (forall r w',
         processInput env callSid userInput w = (r, w') ->
         rounds (trace w') = S (rounds (trace w)) /\
         forall resp, r = Ok resp ->
         forall s', getSession callSid (sessions w') = Some s' ->
         exists t1 t2,
           messageHistory s' = messageHistory s ++ turnEntries userInput (text resp) t1 t2).
  { intros Hcut. split.
    - destruct (processInput env callSid userInput w) as [r w'] eqn:Hrun.
      exact (proj1 (Hcut r w' eq_refl)).
    - intros resp w' Hrun. exact (proj2 (Hcut _ _ Hrun) resp eq_refl). }
  intros r w'. unfold processInput.
  unfold bind at 1. unfold redis_getSession at 1. rewrite Hs.
  unfold bind at 1. unfold ambient at 1.
  unfold bind at 1. unfold redis_addMessage at 1.
  unfold bind at 1. unfold redis_getSession at 1. cbn [sessions trace].
  rewrite getSession_addMessage, Hs. cbn [fmap option_fmap option_map].
  unfold bind at 1. unfold ambient at 1. cbn [sessions trace].
  unfold bind at 1. unfold external at 1. cbn [sessions trace].
  set (umsg := mkMessage user (Some userInput) (clock env (trace w))).
  set (context := mkToolContext _ _ _ _ _ _ _).
  destruct (openai_chat env (trace w) _ context) as [response|e]; cycle 1.
  { intros [= <- <-]. cbn [trace]. split; [apply rounds_snoc_chat|discriminate]. }
  set (wb := mkWorld (addMessage callSid umsg (sessions w))
               (trace w ++ [OpenAIChat (messageHistory (pushMessage s umsg)) context])).
  assert (Hwb : rounds (trace wb) = S (rounds (trace w))).
  { unfold wb. cbn [trace]. apply rounds_snoc_chat. }
  assert (Hsb : getSession callSid (sessions wb) = Some (pushMessage s umsg)).
  { unfold wb. cbn [sessions]. by rewrite getSession_addMessage, Hs. }
  clearbody wb.
  set (middle := match functionCall response with Some _ => _ | None => _ end).
  assert (Hmiddle : keeps middle).
  { unfold middle. destruct (functionCall response) as [fc|]; [|auto with keeps].
    apply keeps_bind; [apply keeps_executeFunctionCall|intros result].
    repeat keeps_step. }
  clearbody middle. unfold bind at 1. specialize (Hmiddle wb).
  destruct (middle wb) as [[outcome|e] wd]; cbn [snd] in Hmiddle; cycle 1.
  { intros [= <- <-]. rewrite (quiet_rounds _ _ Hmiddle). split; [exact Hwb|discriminate]. }
  destruct outcome as [[[responseText shouldEnd] shouldTransfer] transferReason].
  pose proof (quiet_rounds _ _ Hmiddle) as Hrounds. destruct Hmiddle as [Hkept _].
  unfold bind at 1.
  destruct (decide (responseText = "")) as [Hempty|Hfull].
  { unfold ret. intros [= <- <-]. split; [congruence|].
    intros resp [= <-] s' Hs'. cbn [text].
    destruct (Hkept _ _ Hs') as (sb & Hsb' & ->).
    rewrite Hsb in Hsb'. injection Hsb' as <-.
    exists (clock env (trace w)), 0. unfold turnEntries.
    rewrite decide_True by exact Hempty. reflexivity. }
  assert (Hhistory : forall s' t2,
            getSession callSid
              (addMessage callSid (mkMessage assistant (Some responseText) t2) (sessions wd))
            = Some s' ->
            exists t1 t2',
              messageHistory s' = messageHistory s ++ turnEntries userInput responseText t1 t2').
  { intros s' t2. rewrite getSession_addMessage.
    destruct (getSession callSid (sessions wd)) as [sd|] eqn:Hsd; [|discriminate].
    intros [= <-]. destruct (Hkept _ _ Hsd) as (sb & Hsb' & Hh).
    rewrite Hsb in Hsb'. injection Hsb' as <-.
    exists (clock env (trace w)), t2. unfold turnEntries.
    rewrite decide_False by exact Hfull. simpl. rewrite Hh. simpl.
    by rewrite <- app_assoc. }
  unfold try_catch, bind, external, ambient, redis_addMessage, ret. cbn [sessions trace].
  destruct (ttsService_textToSpeech env (trace wd) (Some responseText)) as [a|e];
    cbn [sessions trace];
    destruct (callLogModel_appendToTranscript env _ callSid "user" userInput);
    cbn [sessions trace];
    try destruct (callLogModel_appendToTranscript env _ callSid "assistant" responseText);
    intros [= <- <-]; cbn [sessions trace];
    (split;
     [rewrite <- ?app_assoc, rounds_app_quiet by (repeat constructor); congruence
     |try discriminate; intros resp [= <-] s' Hs'; cbn [text]; eapply Hhistory; exact Hs']).
Qed.

Lemma generateGreeting_history callSid w s g w' :
  getSession callSid (sessions w) = Some s ->
  generateGreeting env callSid w = (Ok g, w') ->
  exists s' t,
    getSession callSid (sessions w') = Some s' /\
    messageHistory s' = messageHistory s ++ [mkMessage assistant (greeting_text g) t].
Proof.
  intros Hs. unfold generateGreeting. unfold bind at 1. unfold redis_getSession at 1.
  rewrite Hs. unfold reservationModel_length, gt_zero. rewrite andb_false_r.
  unfold bind, try_catch, external, ambient, redis_addMessage, redis_updateSessionState, ret.
  unfold updateSessionState.
  destruct (truthy_string (customer s ≫= full_name)); cbn [sessions trace];
    destruct (ttsService_textToSpeech env (trace w) _); cbn [sessions trace];
    rewrite getSession_addMessage, Hs; cbn [fmap option_fmap option_map];
    intros [= <- <-]; cbn [sessions greeting_text];
    eexists _, _; (split; [apply getSession_setSession|reflexivity]).
Qed.

Lemma converse_history callSid inputs :
  forall w s responses w' s',
    getSession callSid (sessions w) = Some s ->
    converse env callSid inputs w = (Ok responses, w') ->
    getSession callSid (sessions w') = Some s' ->
    length responses = length inputs /\
    spoken <$> messageHistory s' = (spoken <$> messageHistory s) ++ dialogue inputs responses.
Proof.
  induction inputs as [|userInput inputs IH]; intros w s responses w' s' Hs; simpl.
  - intros [= <- <-] Hs'. rewrite Hs in Hs'. injection Hs' as <-.
    by rewrite app_nil_r.
  - unfold bind at 1.
    destruct (processInput env callSid userInput w) as [[response|e] w1] eqn:Hturn;
      [|discriminate].
    unfold bind at 1.
    destruct (converse env callSid inputs w1) as [[rest|e] w2] eqn:Hrest; [|discriminate].
    intros [= <- <-] Hs'.
    destruct (getSession callSid (sessions w1)) as [s1|] eqn:Hs1.
    + destruct (IH _ _ _ _ _ Hs1 Hrest Hs') as [Hlen Hhist].
      destruct (proj2 (processInput_effect callSid userInput w s Hs) _ _ Hturn _ Hs1)
        as (t1 & t2 & Hturn1).
      split; [simpl; lia|]. rewrite Hhist, Hturn1, fmap_app, <- app_assoc.
      f_equal. unfold turnEntries. simpl. by destruct (decide (text response = "")).
    + exfalso. clear IH Hturn.
      destruct inputs as [|next inputs]; simpl in Hrest.
      * injection Hrest as <- <-. congruence.
      * unfold bind at 1 in Hrest.
        by rewrite (processInput_no_session callSid next w1 Hs1) in Hrest.
Qed.

(** Only [end_call] asks for the call to end, and when it does the session
    is gone. *)
Lemma executeFunctionCall_end_deletes callSid name args w result w' :
  executeFunctionCall env callSid name args w = (Ok result, w') ->
  shouldEnd result = Some true ->
  getSession callSid (sessions w') = None.
Proof.
  unfold executeFunctionCall. unfold bind at 1. unfold redis_getSession at 1.
  destruct (getSession callSid (sessions w)) as [session|] eqn:Hs;
    [|by intros [= <- <-]].
  repeat case_decide.
  all: try (unfold handleCheckAvailability, handleCreateReservation,
              handleModifyReservation, handleCancleReservation, handleGetReservations,
              handleUpdateName, handleFaq, handleTransfer,
              customerModel_incrementReservation, reservationModel_cancle,
              try_catch, bind, external, ambient, redis_updateSession, ret, throw;
            crack; by intros [= <- <-]).
  rewrite handleEndCall_run.
  destruct (callLogModel_completeCall env _ callSid _); [|discriminate].
  intros [= <- <-] _. apply getSession_deleteSession.
Qed.

(** A turn that asks for the call to end leaves no session behind. *)
Lemma processInput_end_deletes callSid userInput w resp w' :
  processInput env callSid userInput w = (Ok resp, w') ->
  resp_shouldEnd resp = true ->
  getSession callSid (sessions w') = None.
Proof.
  unfold processInput. unfold bind at 1. unfold redis_getSession at 1.
  destruct (getSession callSid (sessions w)) as [s|] eqn:Hs; [|discriminate].
  unfold bind at 1. unfold ambient at 1.
  unfold bind at 1. unfold redis_addMessage at 1.
  unfold bind at 1. unfold redis_getSession at 1. cbn [sessions trace].
  rewrite getSession_addMessage, Hs. cbn [fmap option_fmap option_map].
  unfold bind at 1. unfold ambient at 1. cbn [sessions trace].
  unfold bind at 1. unfold external at 1. cbn [sessions trace].
  destruct (openai_chat env (trace w) _ _) as [response|e]; [|discriminate].
  unfold bind at 1.
  destruct (functionCall response) as [fc|]; cycle 1.
  { unfold ret at 1. unfold bind, try_catch, external, ambient, redis_addMessage, ret.
    crack;
      intros [= <- <-]; discriminate. }
  unfold bind at 1.
  destruct (executeFunctionCall env callSid _ _ _) as [[result|e] wc] eqn:Hexec;
    [|discriminate].
  unfold bind at 1, external at 1. cbn [sessions trace].
  destruct (openai_continueAfterFunctionCall env _ _ _ _ _ _) as [responseText|e];
    [|discriminate].
  unfold ret at 1.
  destruct (shouldEnd result) as [[|]|] eqn:Hend; cbn [default];
    try (unfold bind, try_catch, external, ambient, redis_addMessage, ret;
         crack;
         intros [= <- <-]; discriminate).
  pose proof (executeFunctionCall_end_deletes _ _ _ _ _ _ Hexec Hend) as Hgone.
  unfold bind, try_catch, external, ambient, redis_addMessage, ret.
  destruct (decide (responseText = "")); [by intros [= <- <-]|].
  cbv beta iota zeta. cbn [sessions trace].
  destruct (ttsService_textToSpeech env _ (Some responseText));
    cbv beta iota zeta; cbn [sessions trace]; unfold addMessage; rewrite Hgone;
    crack; intros [= <- <-] _; exact Hgone.
Qed.

Lemma initializeConversation_session callSid fromNumber toNumber w session w' :
  initializeConversation env callSid fromNumber toNumber w = (Ok session, w') ->
  getSession callSid (sessions w') = Some session /\ messageHistory session = [].
Proof.
  unfold initializeConversation, bind, external, ambient, redis_setSession, ret.
  crack; intros [= <- <-]; cbn [sessions].
  split; [apply getSession_setSession|reflexivity].
Qed.

Lemma converse_length callSid inputs :
  forall w responses w',
    converse env callSid inputs w = (Ok responses, w') ->
    length responses = length inputs.
Proof.
  induction inputs as [|userInput inputs IH]; intros w responses w'; simpl.
  - by intros [= <- <-].
  - unfold bind at 1. destruct (processInput env callSid userInput w) as [[r|e] w1];
      [|discriminate].
    unfold bind at 1.
    destruct (converse env callSid inputs w1) as [[rs|e] w2] eqn:Hrest; [|discriminate].
    intros [= <- <-]. simpl. f_equal. by eapply IH.
Qed.

Lemma converse_end_deletes callSid inputs :
  forall w responses w' final,
    converse env callSid inputs w = (Ok responses, w') ->
    last responses = Some final ->
    resp_shouldEnd final = true ->
    getSession callSid (sessions w') = None.
Proof.
  induction inputs as [|userInput inputs IH]; intros w responses w' final; simpl.
  - by intros [= <- <-].
  - unfold bind at 1.
    destruct (processInput env callSid userInput w) as [[r|e] w1] eqn:Hturn;
      [|discriminate].
    unfold bind at 1.
    destruct (converse env callSid inputs w1) as [[rs|e] w2] eqn:Hrest; [|discriminate].
    intros [= <- <-] Hlast Hend.
    destruct rs as [|r' rs].
    + injection Hlast as <-.
      pose proof (converse_length _ _ _ _ _ Hrest) as Hlen.
      destruct inputs; [|discriminate].
      simpl in Hrest. injection Hrest as <-.
      eapply processInput_end_deletes; eauto.
    + eapply IH; eauto.
Qed.

Lemma dialogue_roles inputs :
  forall responses,
    length responses = length inputs ->
    Forall (fun r => text r <> "") responses ->
    fst <$> dialogue inputs responses = concat (replicate (length inputs) [user; assistant]).
Proof.
  induction inputs as [|userInput inputs IH]; intros [|r rs] Hlen Hfull;
    try discriminate; [reflexivity|].
  apply Forall_cons in Hfull as [Hr Hrs]. simpl.
  rewrite decide_False by exact Hr. simpl. f_equal. f_equal.
  apply IH; [by injection Hlen|exact Hrs].
Qed.

Lemma entries_roles r history :
  entries r history = length (filter (fun x => x = r) (role <$> history)).
Proof.
  unfold entries. induction history as [|m history IH]; [reflexivity|].
  rewrite fmap_cons, !filter_cons. repeat case_decide; simpl; congruence.
Qed.

Lemma alternating_counts n :
  length (filter (fun x => x = user) (concat (replicate n [user; assistant]))) = n /\
  length (filter (fun x => x = assistant) (concat (replicate n [user; assistant]))) = n.
Proof.
  induction n as [|n [IHu IHa]]; [done|]. simpl.
  rewrite !filter_cons. repeat case_decide; try discriminate; try done.
  simpl. by rewrite IHu, IHa.
Qed.

End DispatchFacts.

Section TurnClaims.
Import Js Types World Redis Conversation Expected Samples.

(** C8. A final transcript for a call whose session cannot be found makes
    [processInput] fail with the session-missing error, before any outside
    call and without touching the store: no session is created for the
    call. *)
Theorem processInput_session_missing env callSid userInput w :
  getSession callSid (sessions w) = None ->
  processInput env callSid userInput w = (Throw ("Session not found: " +:+ callSid), w) /\
  getSession callSid (sessions (snd (processInput env callSid userInput w))) = None.
Proof.
  intros Hs. rewrite (processInput_no_session env callSid userInput w Hs).
  split; [reflexivity|exact Hs].
Qed.

(** A transcript for a call that was never started. *)
Lemma processInput_session_missing_witness :
  processInput (calmEnv ada [dinner]) "CA404" "book a table" emptyWorld
    = (Throw "Session not found: CA404", emptyWorld) /\
  getSession "CA404"
    (sessions (snd (processInput (calmEnv ada [dinner]) "CA404" "book a table" emptyWorld)))
    = None.
Proof.
  exact (processInput_session_missing (calmEnv ada [dinner]) "CA404" "book a table"
           emptyWorld (lookup_empty _)).
Defined.

(** C9.  The specification has the greeting name a known caller and the date
    and time of the upcoming reservation, and be a non-empty string for every
    caller.  The branch that would do so is guarded by
    [reservationModel.length > 0], which is never true, and there is no
    branch for a caller without a name: for every session the greeting is
    the generic text when the caller has a name, and undefined otherwise. *)
Theorem generateGreeting_generic_or_undefined env callSid session w :
  getSession callSid (sessions w) = Some session ->
  exists audio w',
    generateGreeting env callSid w =
    (Ok (mkGreetingResponse
           (if truthy_string (customer session ≫= full_name)
            then Some (genericGreeting (or_string (BUSINESS_NAME env) "our clinic"))
            else None)
           audio), w').
Proof.
  intros Hs. unfold generateGreeting. unfold bind at 1. unfold redis_getSession at 1.
  rewrite Hs. unfold reservationModel_length, gt_zero. rewrite andb_false_r.
  unfold bind, try_catch, external, ambient, redis_addMessage, redis_updateSessionState, ret.
  destruct (truthy_string (customer session ≫= full_name)); simpl.
  - destruct (ttsService_textToSpeech env (trace w) _); simpl;
      destruct (updateSessionState _ _ _); eexists _, _; reflexivity.
  - destruct (ttsService_textToSpeech env (trace w) None); simpl;
      destruct (updateSessionState _ _ _); eexists _, _; reflexivity.
Qed.

(** The known caller with a reservation on 1 June at 19:00 is greeted with
    the generic text, which contains neither the name nor the date nor the
    time; the caller without a name gets no text at all. *)
Lemma generateGreeting_generic_or_undefined_witness :
  (exists audio w',
     generateGreeting (calmEnv ada [dinner]) "CA1"
       (worldWith (sessionOf "CA1" (Some ada) [dinner] []))
     = (Ok (mkGreetingResponse (Some (genericGreeting "our clinic")) audio), w')) /\
  String.index 0 "Ada" (genericGreeting "our clinic") = None /\
  String.index 0 "June" (genericGreeting "our clinic") = None /\
  String.index 0 "7 PM" (genericGreeting "our clinic") = None /\
  (exists audio w',
     generateGreeting (calmEnv stranger []) "CA2"
       (worldWith (sessionOf "CA2" (Some stranger) [] []))
     = (Ok (mkGreetingResponse None audio), w')).
Proof.
  split; [|split; [|split; [|split]]]; try (vm_compute; reflexivity).
  - exact (generateGreeting_generic_or_undefined (calmEnv ada [dinner]) "CA1"
             (sessionOf "CA1" (Some ada) [dinner] [])
             (worldWith (sessionOf "CA1" (Some ada) [dinner] []))
             (lookup_singleton_eq _ _)).
  - exact (generateGreeting_generic_or_undefined (calmEnv stranger []) "CA2"
             (sessionOf "CA2" (Some stranger) [] [])
             (worldWith (sessionOf "CA2" (Some stranger) [] []))
             (lookup_singleton_eq _ _)).
Defined.

(** C10.  The specification has the action name [get_customer_reservations]
    reach the reservations handler.  The dispatcher lists that handler under
    [get_customer_name]; the name the tool list declares falls through to the
    default case and is answered with a failure, also when no caller is
    resolved (where the handler itself would have returned success with an
    empty list). *)
Theorem get_customer_reservations_unknown env callSid session args w :
  getSession callSid (sessions w) = Some session ->
  executeFunctionCall env callSid "get_customer_reservations" args w =
    (Ok (failed "Unknown function: get_customer_reservations"), w) /\
  executeFunctionCall env callSid "get_customer_name" args w =
    handleGetReservations env session w /\
  (customer session = None ->
   handleGetReservations env session w = (Ok (succeeded (DataReservations [])), w)).
Proof.
  intros Hs. unfold executeFunctionCall, bind, redis_getSession. rewrite Hs.
  split; [reflexivity|]. split; [reflexivity|].
  intros Hc. unfold handleGetReservations. by rewrite Hc.
Qed.

(** The action on a session without a resolved caller. *)
Lemma get_customer_reservations_unknown_witness :
  executeFunctionCall (calmEnv ada []) "CA3" "get_customer_reservations" ∅
    (worldWith (sessionOf "CA3" None [] []))
  = (Ok (failed "Unknown function: get_customer_reservations"),
     worldWith (sessionOf "CA3" None [] [])).
Proof.
  exact (proj1 (get_customer_reservations_unknown (calmEnv ada []) "CA3"
                  (sessionOf "CA3" None [] []) ∅
                  (worldWith (sessionOf "CA3" None [] []))
                  (lookup_singleton_eq _ _))).
Defined.

(** C5, as the specification states it, fails after a single turn: the
    greeting is stored as an assistant entry before the first turn, so the
    history of a call that was greeted and completed one turn reads
    assistant, user, assistant, with one user entry and two assistant
    entries. *)
Lemma one_turn_leaves_two_assistant_entries :
  fst (processInput (calmEnv ada [dinner]) "CA1" "hello" greetedWorld)
    = Ok (mkConversationResponse "Of course." (Some []) false false None) /\
  (fun s => role <$> messageHistory s)
    <$> getSession "CA1"
          (sessions (snd (processInput (calmEnv ada [dinner]) "CA1" "hello" greetedWorld)))
    = Some [assistant; user; assistant] /\
  entries user
    <$> (messageHistory
           <$> getSession "CA1"
                 (sessions (snd (processInput (calmEnv ada [dinner]) "CA1" "hello"
                                   greetedWorld))))
    = Some 1%nat /\
  entries assistant
    <$> (messageHistory
           <$> getSession "CA1"
                 (sessions (snd (processInput (calmEnv ada [dinner]) "CA1" "hello"
                                   greetedWorld))))
    = Some 2%nat.
Proof. repeat split; vm_compute; reflexivity. Qed.

(** C5, amended.  Counting the greeting, which [generateGreeting] stores as
    an assistant entry: after a call has started, has been greeted and has
    completed N turns, a session that is still stored holds the greeting
    followed, turn by turn and in order, by the caller's words and then the
    reply unless the reply is empty.  When no reply is empty these are N user
    entries and N+1 assistant entries, strictly alternating from the
    greeting on.  A last turn that asked for the call to end has deleted the
    session, and no history is left to read. *)
Theorem history_after_greeting_and_turns
    env callSid fromNumber toNumber inputs w0 session0 w1 g w2 responses w3 :
  initializeConversation env callSid fromNumber toNumber w0 = (Ok session0, w1) ->
  generateGreeting env callSid w1 = (Ok g, w2) ->
  converse env callSid inputs w2 = (Ok responses, w3) ->
  length responses = length inputs /\
  (forall s',
     getSession callSid (sessions w3) = Some s' ->
     spoken <$> messageHistory s'
       = (assistant, greeting_text g) :: dialogue inputs responses /\
     (Forall (fun r => text r <> "") responses ->
      role <$> messageHistory s'
        = assistant :: concat (replicate (length inputs) [user; assistant]) /\
      entries user (messageHistory s') = length inputs /\
      entries assistant (messageHistory s') = S (length inputs))) /\
  (forall final,
     last responses = Some final ->
     resp_shouldEnd final = true ->
     getSession callSid (sessions w3) = None).
Proof.
  intros Hinit Hgreet Hturns.
  pose proof (converse_length env _ _ _ _ _ Hturns) as Hlen.
  split; [exact Hlen|]. split; [|intros final; by eapply converse_end_deletes].
  intros s' Hs'.
  destruct (initializeConversation_session env _ _ _ _ _ _ Hinit) as [Hs1 Hempty].
  destruct (generateGreeting_history env _ _ _ _ _ Hs1 Hgreet) as (s2 & t & Hs2 & Hh2).
  destruct (converse_history env _ _ _ _ _ _ _ Hs2 Hturns Hs') as [_ Hh3].
  rewrite Hh2, Hempty in Hh3. simpl in Hh3.
  split; [exact Hh3|]. intros Hfull.
  assert (Hroles : role <$> messageHistory s'
                   = assistant :: concat (replicate (length inputs) [user; assistant])).
  { transitivity (fst <$> (spoken <$> messageHistory s'));
      [by rewrite <- list_fmap_compose|].
    rewrite Hh3. simpl. f_equal. by apply dialogue_roles. }
  split; [exact Hroles|].
  rewrite !entries_roles, Hroles, !filter_cons.
  destruct (alternating_counts (length inputs)) as [Hu Ha].
  repeat case_decide; try discriminate; try done. simpl. by rewrite Hu, Ha.
Qed.

(** The sample call after two turns: five entries, two of the caller and
    three of the assistant. *)
Lemma history_after_greeting_and_turns_witness :
  exists s',
    getSession "CA1"
      (sessions (snd (converse (calmEnv ada [dinner]) "CA1" ["hello"; "thanks"] greetedWorld)))
      = Some s' /\
    role <$> messageHistory s' = [assistant; user; assistant; user; assistant] /\
    entries user (messageHistory s') = 2%nat /\
    entries assistant (messageHistory s') = 3%nat.
Proof.
  destruct (getSession "CA1"
              (sessions (snd (converse (calmEnv ada [dinner]) "CA1" ["hello"; "thanks"]
                                greetedWorld)))) as [s'|] eqn:Hs';
    [|vm_compute in Hs'; discriminate].
  exists s'. split; [reflexivity|].
  destruct (history_after_greeting_and_turns (calmEnv ada [dinner]) "CA1" "+15550100"
              "+15550199" ["hello"; "thanks"] emptyWorld
              (fst sampleStart) (snd sampleStart) sampleGreeting greetedWorld
              (fst sampleTurns) (snd (converse (calmEnv ada [dinner]) "CA1"
                                        ["hello"; "thanks"] greetedWorld)))
    as (_ & Hhist & _); try (vm_compute; reflexivity).
  destruct (Hhist s' Hs') as [_ Hfull].
  apply Hfull. repeat constructor; discriminate.
Defined.

End TurnClaims.

(** ** The media-stream turn guard *)

Section GuardFacts.
Import Js Types World Redis Conversation Expected Twilio.
Variable env : Env.

(** While a turn is in flight, a final transcript changes nothing. *)
Lemma onTranscript_enter_busy c text :
  isProcessing c = true -> onTranscript_enter c text = c.
Proof.
  intros Hbusy. unfold onTranscript_enter. rewrite Hbusy.
  destruct (conn_callSid c); [|reflexivity]. by rewrite orb_true_r.
Qed.

Lemma onTranscript_enter_idle c callSid text :
  conn_callSid c = Some callSid -> callSid <> "" -> isProcessing c = false ->
  onTranscript_enter c text
  = mkConnection (Some callSid) (conn_streamSid c) true (Some (callSid, text)).
Proof.
  intros Hsid Hne Hidle. unfold onTranscript_enter, truthy_string.
  rewrite Hsid, Hidle. by rewrite decide_False by exact Hne.
Qed.

(** Transcripts delivered during a turn, final or interim, leave the
    connection and the world as they are. *)
Lemma run_transcripts_busy c (later : list (bool * string)) w :
  isProcessing c = true ->
  run env c (delivered <$> later) w = (Ok c, w).
Proof.
  intros Hbusy. induction later as [|[final text] later IH]; [reflexivity|].
  rewrite fmap_cons. cbn [run]. unfold bind, delivered at 1.
  destruct final; cbn [fst snd handle ret]; [|exact IH].
  by rewrite (onTranscript_enter_busy c text Hbusy).
Qed.

Lemma run_app c evs1 evs2 w :
  run env c (evs1 ++ evs2) w =
  match run env c evs1 w with
  | (Ok c', w') => run env c' evs2 w'
  | (Throw e, w') => (Throw e, w')
  end.
Proof.
  revert c w. induction evs1 as [|ev evs1 IH]; intros c w; [reflexivity|].
  simpl. unfold bind. destruct (handle env c ev w) as [[c'|e] w']; [apply IH|reflexivity].
Qed.

Lemma keeps_respond_tail c (response : ConversationResponse) :
  keeps (let! _ :=
           match audio response with
           | Some a =>
             if truthy_string (conn_streamSid c)
             then sendAudioResponse env (default "" (conn_streamSid c)) a
             else ret tt
           | None => ret tt
           end in
         if resp_shouldEnd response && truthy_string (conn_callSid c)
         then hangupCall env (default "" (conn_callSid c))
         else if resp_shouldTransfer response && truthy_string (conn_callSid c)
         then transferCall env (default "" (conn_callSid c))
         else ret tt).
Proof.
  unfold sendAudioResponse, hangupCall, transferCall. repeat keeps_step.
Qed.

(** The suspended callback, resumed: [processInput] runs once, for the
    transcript that opened the turn, and the flag is lowered whether it
    returned or threw. *)
Lemma onTranscript_resume_releases c callSid text w :
  pending c = Some (callSid, text) ->
  exists w',
    onTranscript_resume env c w
    = (Ok (mkConnection (conn_callSid c) (conn_streamSid c) false None), w') /\
    rounds (trace w') =
    (rounds (trace w)
     + match getSession callSid (sessions w) with Some _ => 1 | None => 0 end)%nat.
Proof.
  intros Hpending. unfold onTranscript_resume. rewrite Hpending.
  unfold bind at 1, try_catch, respond. unfold bind at 1.
  destruct (getSession callSid (sessions w)) as [s|] eqn:Hs.
  - destruct (processInput_effect env callSid text w s Hs) as [Hrounds _].
    destruct (processInput env callSid text w) as [[response|e] w1]; cbn [snd] in Hrounds.
    + pose proof (keeps_respond_tail c response w1) as Htail.
      apply quiet_rounds in Htail.
      match goal with |- context [bind ?m ?k w1] => change (bind m k w1) with
        ((let! _ := m in k tt) w1) end.
      destruct (bind _ _ w1) as [[[]|e] w2]; cbn [snd] in Htail;
        eexists; (split; [reflexivity|]); lia.
    + eexists. split; [reflexivity|]. lia.
  - rewrite (processInput_no_session env callSid text w Hs).
    eexists. split; [reflexivity|]. lia.
Qed.

End GuardFacts.

Section GuardClaims.
Import Js Types World Redis Conversation Expected Twilio Samples.

(** C1. On a connection bound to a call and not processing, a final
    transcript opens a turn; every final (or interim) transcript delivered
    before that turn settles is discarded: the connection is left exactly as
    it was, nothing is queued, and nothing runs for it.  When the turn
    settles, [processInput] has run once, for the first transcript only, so
    exactly one reasoning round was asked for when the session exists (none
    when it is missing); the flag is lowered whatever the outcome of the
    turn, and the next final transcript opens a turn again. *)
Theorem at_most_one_active_turn env c callSid first later w :
  conn_callSid c = Some callSid ->
  callSid <> "" ->
  isProcessing c = false ->
  let entered := mkConnection (Some callSid) (conn_streamSid c) true (Some (callSid, first)) in
  let released := mkConnection (Some callSid) (conn_streamSid c) false None in
  let overlapping := delivered <$> later in
  run env c (FinalTranscript first :: overlapping) w = (Ok entered, w) /\
  (exists w',
     run env c (FinalTranscript first :: overlapping ++ [TurnSettles]) w = (Ok released, w') /\
     rounds (trace w') =
     (rounds (trace w)
     + match getSession callSid (sessions w) with Some _ => 1 | None => 0 end)%nat) /\
  (forall next, isProcessing (onTranscript_enter released next) = true).
Proof.
  intros Hsid Hne Hidle entered released overlapping.
  assert (Hopen : run env c (FinalTranscript first :: overlapping) w = (Ok entered, w)).
  { cbn [run handle]. unfold bind, ret.
    rewrite (onTranscript_enter_idle c callSid first Hsid Hne Hidle).
    by apply run_transcripts_busy. }
  split; [exact Hopen|]. split.
  - change (FinalTranscript first :: overlapping ++ [TurnSettles])
      with ((FinalTranscript first :: overlapping) ++ [TurnSettles]).
    rewrite run_app, Hopen. cbn [run handle]. unfold bind at 1.
    destruct (onTranscript_resume_releases env entered callSid first w eq_refl)
      as (w' & -> & Hrounds).
    exists w'. split; [reflexivity|exact Hrounds].
  - intros next. by rewrite (onTranscript_enter_idle released callSid next eq_refl Hne eq_refl).
Qed.

(** The sample call: a second final transcript and an interim one arrive
    while the first is being processed; one round is asked for. *)
Lemma at_most_one_active_turn_witness :
  exists w',
    run (calmEnv ada [dinner]) (mkConnection (Some "CA1") (Some "MZ1") false None)
      [FinalTranscript "hello"; FinalTranscript "are you there"; InterimTranscript "are";
       TurnSettles] greetedWorld
    = (Ok (mkConnection (Some "CA1") (Some "MZ1") false None), w') /\
    rounds (trace w') = 1%nat.
Proof.
  destruct (at_most_one_active_turn (calmEnv ada [dinner])
              (mkConnection (Some "CA1") (Some "MZ1") false None) "CA1" "hello"
              [(true, "are you there"); (false, "are")] greetedWorld eq_refl)
    as (_ & (w' & Hrun & Hrounds) & _); [discriminate|reflexivity|].
  exists w'. split; [exact Hrun|]. rewrite Hrounds. vm_compute. reflexivity.
Defined.

End GuardClaims.
